(** * DashboardExperience of the QuickSight embedding SDK

    A shallow embedding of
    [src/experiences/dashboard-experience/dashboard-experience.ts]:
    the URL grammar check ([extractExperienceFromUrl]), the message
    interception hook ([interceptMessage]), the option transformation
    ([transformDashboardContentOptions]), the response-unwrapping facade
    operations and the constructor that ties them together.

    JavaScript objects are finite maps from property names to values
    ([gmap string value]); the order in which an object lists its keys is
    not part of the model.  Numbers are the binary64 floating-point
    numbers, as [spec_float] values, printed as the language prints them.
    Strings are [string], one character for one
    code unit.  The pattern of the URL grammar names ASCII characters
    only, and case folding never maps a character above 127 to one
    below, so every character above 127 behaves in the same way: it is
    no slash, no word character and no letter of the pattern.

    The base class, the frame class and the event manager are not among
    the sources.  What the class calls of them is a variable of the
    section [DashboardExperience]; [this.frameOptions] is taken to be
    the [frameOptions] that the constructor was given. *)

From Stdlib Require Import ZArith Ascii String SpecFloat.
From stdpp Require Import gmap strings list fin_maps pretty.

#[local] Set Warnings "-register-all".
#[local] Open Scope string_scope.

(** ** JavaScript values *)

(** The values that content options, responses and message payloads are
    made of.  A number is a binary64 floating-point number, given by its
    sign, mantissa and exponent ([valid_binary 53 1024] holds of the
    ones that exist); a function is known by its source text. *)
Inductive value :=
| VUndefined
| VNull
| VBool (b : bool)
| VNum (x : spec_float)
| VStr (s : string)
| VArr (l : list value)
| VObj (m : gmap string value)
| VFun (src : string).

(** ToBoolean: the test made by [if (v)], [a || b] and [a && b]. *)
Definition ToBoolean (v : value) : bool :=
  match v with
  | VUndefined | VNull => false
  | VBool b => b
  | VNum (S754_zero _) | VNum S754_nan => false
  | VNum _ => true
  | VStr s => match s with EmptyString => false | String _ _ => true end
  | VArr _ | VObj _ | VFun _ => true
  end.

(** The [typeof] operator. *)
Definition typeof (v : value) : string :=
  match v with
  | VUndefined => "undefined"
  | VBool _ => "boolean"
  | VNum _ => "number"
  | VStr _ => "string"
  | VFun _ => "function"
  | VNull | VArr _ | VObj _ => "object"
  end.

(** [v === true]. *)
Definition strict_eq_true (v : value) : bool :=
  match v with VBool true => true | _ => false end.

(** [a || b]: the left operand when it is truthy, else the right one. *)
Definition js_or (a b : value) : value := if ToBoolean a then a else b.

(** [a ?? b]. *)
Definition nullish_coalesce (a b : value) : value :=
  match a with VUndefined | VNull => b | _ => a end.

(** Reading property [k] of a value that is neither [undefined] nor
    [null].  Only own data properties of plain objects are found: the
    names this module reads ([message], [height], [Name], [Values],
    [export], [print], ...) are defined on no built-in prototype, so a
    primitive, array or function yields [undefined]. *)
Definition Get (v : value) (k : string) : value :=
  match v with
  | VObj m => default VUndefined (m !! k)
  | _ => VUndefined
  end.

(** [v?.k]. *)
Definition opt_member (v : value) (k : string) : value :=
  match v with
  | VUndefined | VNull => VUndefined
  | _ => Get v k
  end.

(** ** Printing a number

    [Number::toString] in radix 10.  A finite number [m * 2 ^ e] other
    than zero is printed with the fewest digits [s] and the exponent [n]
    for which [s * 10 ^ (n - k)], [k] being the number of digits of [s],
    rounds to it; of several such [s] the one closest to the number is
    taken.  The digits are then laid out as plain digits, as a decimal
    fraction or with an exponent, by the size of [n]. *)

(** The number of the integer [n]: the nearest binary64 number. *)
Definition Number_of_Z (n : Z) : spec_float :=
  binary_normalize 53 1024 n 0 false.

(** [c * base ^ ex] as a fraction with a positive denominator. *)
Definition scaled (c base ex : Z) : Z * Z :=
  if (0 <=? ex)%Z then ((c * base ^ ex)%Z, 1%Z) else (c, (base ^ (- ex))%Z).

Definition qmul (a b : Z * Z) : Z * Z := ((a.1 * b.1)%Z, (a.2 * b.2)%Z).

Definition qleb (a b : Z * Z) : bool := (a.1 * b.2 <=? b.1 * a.2)%Z.

Definition qltb (a b : Z * Z) : bool := (a.1 * b.2 <? b.1 * a.2)%Z.

Definition qdist (a b : Z * Z) : Z * Z :=
  (Z.abs (a.1 * b.2 - b.1 * a.2), (a.2 * b.2)%Z).

(** The [n] with [10 ^ (n - 1) <= x < 10 ^ n], looked for from [n] up. *)
Fixpoint magnitude (fuel : nat) (x : Z * Z) (n : Z) : Z :=
  match fuel with
  | O => n
  | S fuel' =>
      if qltb x (scaled 1 10 n) then n else magnitude fuel' x (n + 1)%Z
  end.

(** Whether the real [r] rounds to [m * 2 ^ e] (to nearest, ties to the
    even mantissa): it lies between the midpoints to the neighbours,
    the lower of which is closer when [m] is the least mantissa of its
    exponent. *)
Definition rounds_to (m : positive) (e : Z) (r : Z * Z) : bool :=
  let low :=
    if ((Z.pos m =? 2 ^ 52) && (-1074 <? e))%Z
    then scaled (4 * Z.pos m - 1) 2 (e - 2)
    else scaled (4 * Z.pos m - 2) 2 (e - 2) in
  let high := scaled (4 * Z.pos m + 2) 2 (e - 2) in
  if Z.even (Z.pos m) then qleb low r && qleb r high
  else qltb low r && qltb r high.

(** The digit strings [s] of [k] digits that, with exponent [n], round
    to [m * 2 ^ e]: the two next to the number are enough. *)
Definition candidates (m : positive) (e : Z) (k n : Z) : list (Z * Z) :=
  let x := scaled (Z.pos m) 2 e in
  let t := qmul x (scaled 1 10 (k - n)) in
  let s := (t.1 / t.2)%Z in
  List.filter
    (fun sn : Z * Z =>
       ((10 ^ (k - 1) <=? sn.1) && (sn.1 <? 10 ^ k))%Z
       && rounds_to m e (scaled sn.1 10 (n - k)))
    [(s, n); ((s + 1)%Z, n)].

Definition closer (m : positive) (e : Z) (k : Z) (a b : Z * Z) : Z * Z :=
  let x := scaled (Z.pos m) 2 e in
  let da := qdist (scaled a.1 10 (a.2 - k)) x in
  let db := qdist (scaled b.1 10 (b.2 - k)) x in
  if qltb da db then a
  else if qltb db da then b
  else if Z.even a.1 then a else b.

Definition closest (m : positive) (e : Z) (k : Z) (l : list (Z * Z))
    : option (Z * Z) :=
  match l with
  | [] => None
  | a :: l' => Some (fold_left (closer m e k) l' a)
  end.

(** The digits, the exponent and the number of digits; seventeen digits
    tell every binary64 number from its neighbours. *)
Fixpoint shortest (fuel : nat) (m : positive) (e : Z) (n0 k : Z)
    : Z * Z * Z :=
  match fuel with
  | O => (Z.pos m, e, k)
  | S fuel' =>
      match closest m e k
              (candidates m e k n0 ++ candidates m e k (n0 + 1)%Z) with
      | Some sn => (sn.1, sn.2, k)
      | None => shortest fuel' m e n0 (k + 1)%Z
      end
  end.

Fixpoint zeros (n : nat) : string :=
  match n with
  | O => ""
  | S n' => "0" +:+ zeros n'
  end.

Definition format_digits (s n k : Z) : string :=
  let d := pretty s in
  if ((k <=? n) && (n <=? 21))%Z then d +:+ zeros (Z.to_nat (n - k))
  else if ((0 <? n) && (n <=? 21))%Z then
    substring 0 (Z.to_nat n) d +:+ "." +:+
    substring (Z.to_nat n) (Z.to_nat (k - n)) d
  else if ((-6 <? n) && (n <=? 0))%Z then
    "0." +:+ zeros (Z.to_nat (- n)) +:+ d
  else
    let ex := (n - 1)%Z in
    (if (k =? 1)%Z then d
     else substring 0 1 d +:+ "." +:+ substring 1 (Z.to_nat (k - 1)) d)
    +:+ "e" +:+ (if (0 <=? ex)%Z then "+" else "-") +:+ pretty (Z.abs ex).

Definition Number_toString (x : spec_float) : string :=
  match x with
  | S754_nan => "NaN"
  | S754_zero _ => "0"
  | S754_infinity s => if s then "-Infinity" else "Infinity"
  | S754_finite s m e =>
      let n0 := magnitude 700 (scaled (Z.pos m) 2 e) (-330) in
      let '(d, n, k) := shortest 17 m e n0 1 in
      (if s then "-" else "") +:+ format_digits d n k
  end.

(** ToString, as applied by a template literal and by a computed
    property key.  An array joins its elements with commas, printing
    [undefined] and [null] as nothing; an object that has no [toString]
    property of its own prints as [[object Object]].  An object that
    has one is converted by that property, which is called or, not
    being a function, makes the conversion throw: [converts] tells the
    values that no such object is met in, and on them this function is
    the conversion. *)
Fixpoint ToString (v : value) : string :=
  match v with
  | VUndefined => "undefined"
  | VNull => "null"
  | VBool true => "true"
  | VBool false => "false"
  | VNum x => Number_toString x
  | VStr s => s
  | VArr l =>
      String.concat ","
        (map (fun x => match x with
                       | VUndefined | VNull => ""
                       | _ => ToString x
                       end) l)
  | VObj _ => "[object Object]"
  | VFun src => src
  end.


(** ** Host-observable effects *)

Inductive ChangeEventName :=
| FRAME_STARTED
| INVALID_URL
| UNRECOGNIZED_CONTENT_OPTIONS.

Inductive ChangeEventLevel := INFO | WARN | ERROR.

(** [new ChangeEvent(eventName, eventLevel, message, data)]. *)
Record ChangeEvent := {
  ce_eventName : ChangeEventName;
  ce_eventLevel : ChangeEventLevel;
  ce_message : string;
  ce_data : value
}.

(** A frame element, as far as this module touches it: its attributes. *)
Record Element := { attributes : gmap string string }.

(** [element.setAttribute(name, v)]. *)
Definition setAttribute (name v : string) (e : Element) : Element :=
  {| attributes := <[name := v]> (attributes e) |}.

(** The second argument of the callbacks, [{frame}]; [None] is [null]. *)
Record ExperienceFrameMetadata := { frame : option Element }.

(** One invocation of a host callback. *)
Record OnChangeCall := {
  callee : string;
  changeEvent : ChangeEvent;
  metadata : ExperienceFrameMetadata
}.

(** What the experience can change outside itself: the calls the host's
    [onChange] has received so far, oldest first, and the page's set of
    experience identifiers. *)
Record World := {
  onChangeCalls : list OnChangeCall;
  experienceIdentifiers : gset string
}.

Inductive exn :=
| Error (message : string)
| TypeError.

Inductive outcome (A : Type) :=
| Return (a : A)
| Throw (e : exn).
Arguments Return {A} a.
Arguments Throw {A} e.

(** Computations that read and change the world and may throw. *)
Definition M (A : Type) : Type := World -> outcome A * World.

Definition ret {A} (a : A) : M A := fun w => (Return a, w).

Definition throw {A} (e : exn) : M A := fun w => (Throw e, w).

Definition bind {A B} (m : M A) (f : A -> M B) : M B :=
  fun w =>
    match m w with
    | (Return a, w') => f a w'
    | (Throw e, w') => (Throw e, w')
    end.

#[global] Instance M_ret : MRet M := @ret.
#[global] Instance M_bind : MBind M := fun A B f m => bind m f.

(** [v.k]: a TypeError when [v] is [undefined] or [null]. *)
Definition member (v : value) (k : string) : M value :=
  match v with
  | VUndefined | VNull => throw TypeError
  | _ => ret (Get v k)
  end.

(** The part of [FrameOptions] this module reads.  [onChange] is the
    host's listener, named so that its calls can be told apart. *)
Record FrameOptions := {
  url : string;
  onChange : option string;
  resizeHeightOnSizeChangedEvent : value
}.

(** [frameOptions.onChange?.(event, metadata)]. *)
Definition call_onChange (fo : FrameOptions) (ev : ChangeEvent)
    (md : ExperienceFrameMetadata) : M unit :=
  match onChange fo with
  | Some f =>
      fun w =>
        (Return tt,
         {| onChangeCalls :=
              onChangeCalls w ++
                [{| callee := f; changeEvent := ev; metadata := md |}];
            experienceIdentifiers := experienceIdentifiers w |})
  | None => ret tt
  end.

(** ** Regular expressions

    The fragment of the pattern language that the URL grammar is written
    in, matched by backtracking with continuations, in a case-insensitive
    way (flag [i]). *)

Inductive CharSet :=
| CsChar (c : ascii)
| CsWord
| CsUnion (a b : CharSet).

Inductive regex :=
| Bol
| Eol
| Lit (s : string)
| Plus (invert : bool) (cs : CharSet)
| Seq (r1 r2 : regex)
| Alt (r1 r2 : regex)
| Group (i : nat) (r : regex).

(** Case folding of flag [i]: a lower-case ASCII letter becomes its
    upper-case form, every other character is left alone. *)
Definition Canonicalize (c : ascii) : ascii :=
  let n := nat_of_ascii c in
  if ((97 <=? n) && (n <=? 122))%nat then ascii_of_nat (n - 32) else c.

(** [\w]: letters, digits and the underscore. *)
Definition is_word (c : ascii) : bool :=
  let n := nat_of_ascii c in
  (((48 <=? n) && (n <=? 57)) || ((65 <=? n) && (n <=? 90))
   || ((97 <=? n) && (n <=? 122)) || (n =? 95))%nat.

(** Membership in a character set up to case folding.  [\w] is closed
    under case folding, so folding does not change it. *)
Fixpoint CharSet_has (cs : CharSet) (c : ascii) : bool :=
  match cs with
  | CsChar a => Ascii.eqb (Canonicalize a) (Canonicalize c)
  | CsWord => is_word c
  | CsUnion a b => CharSet_has a c || CharSet_has b c
  end.

(** A bracket expression, [[...]] or [[^...]]. *)
Definition class_matches (invert : bool) (cs : CharSet) (c : ascii) : bool :=
  xorb invert (CharSet_has cs c).

(** The input left to read and the captures made so far. *)
Record MatchState := {
  rest : string;
  captures : list (option string)
}.

(** Matching the characters of a literal, one by one. *)
Fixpoint strip_prefix_ci (p s : string) : option string :=
  match p with
  | EmptyString => Some s
  | String a p' =>
      match s with
      | String c s' =>
          if Ascii.eqb (Canonicalize a) (Canonicalize c)
          then strip_prefix_ci p' s'
          else None
      | EmptyString => None
      end
  end.

(** Greedy repetition of a character class: as many characters as
    possible first, one fewer each time the continuation fails. *)
Fixpoint star (f : ascii -> bool) (caps : list (option string))
    (s : string) (k : MatchState -> option MatchState) : option MatchState :=
  match s with
  | String c t =>
      if f c then
        match star f caps t k with
        | Some y => Some y
        | None => k {| rest := s; captures := caps |}
        end
      else k {| rest := s; captures := caps |}
  | EmptyString => k {| rest := s; captures := caps |}
  end.

(** The text read between two states: the front of [s] that [s'] lacks. *)
Definition consumed (s s' : string) : string :=
  substring 0 (String.length s - String.length s') s.

Fixpoint matcher (input : string) (r : regex) (x : MatchState)
    (k : MatchState -> option MatchState) : option MatchState :=
  match r with
  | Bol =>
      if (String.length (rest x) =? String.length input)%nat
      then k x
      else None
  | Eol =>
      match rest x with
      | EmptyString => k x
      | String _ _ => None
      end
  | Lit p =>
      match strip_prefix_ci p (rest x) with
      | Some t => k {| rest := t; captures := captures x |}
      | None => None
      end
  | Plus invert cs =>
      match rest x with
      | String c t =>
          if class_matches invert cs c
          then star (class_matches invert cs) (captures x) t k
          else None
      | EmptyString => None
      end
  | Seq r1 r2 => matcher input r1 x (fun y => matcher input r2 y k)
  | Alt r1 r2 =>
      match matcher input r1 x k with
      | Some z => Some z
      | None => matcher input r2 x k
      end
  | Group i r1 =>
      matcher input r1 x
        (fun y =>
           k {| rest := rest y;
                captures :=
                  <[i := Some (consumed (rest x) (rest y))]> (captures y) |})
  end.

Definition capture_value (c : option string) : value :=
  match c with
  | Some s => VStr s
  | None => VUndefined
  end.

(** [RegExp.prototype.exec] of a pattern without the global flag: the
    match is tried at each position from the left; the result holds the
    matched text and then the [ncap] groups. *)
Fixpoint exec_from (input : string) (r : regex) (ncap : nat) (s : string)
    : option (list value) :=
  match matcher input r
          {| rest := s; captures := replicate (S ncap) None |} Some with
  | Some y =>
      Some (capture_value <$>
              <[0 := Some (consumed s (rest y))]> (captures y))
  | None =>
      match s with
      | String _ s' => exec_from input r ncap s'
      | EmptyString => None
      end
  end.

Definition exec (r : regex) (ncap : nat) (input : string)
    : option (list value) :=
  exec_from input r ncap input.

(** ** The dashboard experience *)

Inductive ExperienceType := DASHBOARD | VISUAL.

Record IDashboardExperience := {
  experienceType : ExperienceType;
  dashboardId : value
}.

(** [/^https:\/\/[^/]+\/embed\/[^/]+\/dashboards\/([\w-]+)(\?|$)/i] *)
Definition dashboard_url_pattern : regex :=
  Seq Bol
    (Seq (Lit "https://")
       (Seq (Plus true (CsChar "/"))
          (Seq (Lit "/embed/")
             (Seq (Plus true (CsChar "/"))
                (Seq (Lit "/dashboards/")
                   (Seq (Group 1 (Plus false (CsUnion CsWord (CsChar "-"))))
                      (Group 2 (Alt (Lit "?") Eol)))))))).

Definition invalid_url_event (url : string) : ChangeEvent :=
  {| ce_eventName := INVALID_URL;
     ce_eventLevel := ERROR;
     ce_message := "Invalid dashboard experience url";
     ce_data := VObj {[ "url" := VStr url ]} |}.

Definition extractExperienceFromUrl (fo : FrameOptions) (url : string)
    : M IDashboardExperience :=
  let matches := default [] (exec dashboard_url_pattern 2 url) in
  if (length matches <? 3)%nat then
    _ ← call_onChange fo (invalid_url_event url) {| frame := None |};
    throw (Error "Invalid dashboard experience URL")
  else
    mret {| experienceType := DASHBOARD;
            dashboardId := default VUndefined (matches !! 1) |}.

(** An inbound message, [{eventName, message}]. *)
Record EmbeddingEvents := {
  eventName : string;
  message : value
}.

(** The hook handed to the frame: on SIZE_CHANGED, with
    [resizeHeightOnSizeChangedEvent] set, the frame's height follows the
    reported one.  The frame element is passed in and handed back, so
    that the change made to it is visible. *)
Definition interceptMessage (fo : FrameOptions)
    (messageEvent : EmbeddingEvents)
    (metadata : option ExperienceFrameMetadata)
    : option ExperienceFrameMetadata :=
  if String.eqb (eventName messageEvent) "SIZE_CHANGED"
     && ToBoolean (resizeHeightOnSizeChangedEvent fo)
  then
    match metadata with
    | Some md =>
        match frame md with
        | Some el =>
            Some {| frame :=
                      Some (setAttribute "height"
                              (ToString
                                 (opt_member (message messageEvent) "height")
                               +:+ "px") el) |}
        | None => metadata
        end
    | None => metadata
    end
  else metadata.

Inductive MessageEventName :=
| GET_PARAMETERS
| GET_SHEETS
| GET_VISUAL_ACTIONS
| GET_SELECTED_SHEET_ID
| GET_SHEET_VISUALS.

(** [new EmbeddingMessageEvent(eventName, message)]. *)
Inductive EmbeddingMessageEvent :=
| new_EmbeddingMessageEvent (name : MessageEventName) (payload : value).

(** An entry of type [Parameter], [{Name, Values}], and the object it is
    at run time. *)
Record ParameterEntry := {
  Name : string;
  Values : value
}.

Definition ParameterEntry_value (p : ParameterEntry) : value :=
  VObj (<["Name" := VStr (Name p)]> (<["Values" := Values p]> ∅)).

(** The reduction of the parameter list,
    [(acc, parameter) => ({...acc, [parameter.Name]: parameter.Values})],
    started from [acc]. *)
Fixpoint reduce_parameters (parameters : list value)
    (parametersAsObject : gmap string value) : M (gmap string value) :=
  match parameters with
  | [] => mret parametersAsObject
  | parameter :: parameters' =>
      name ← member parameter "Name";
      values ← member parameter "Values";
      reduce_parameters parameters'
        (<[ToString name := values]> parametersAsObject)
  end.

(** The parameter list that a name-to-values mapping stands for: one
    [{Name, Values}] entry per key.  This direction is not in the
    module; it writes out the words of the round-trip property. *)
Definition parameters_of_object (o : gmap string value) : list ParameterEntry :=
  (fun kv => {| Name := kv.1; Values := kv.2 |}) <$> map_to_list o.

(** The names that the destructuring of the content options takes out. *)
Definition recognized_options : list string :=
  ["parameters"; "locale"; "attributionOptions"; "sheetOptions";
   "toolbarOptions"; "onMessage"].

(** [const {a, b, ...rest} = o]: the own properties of [o] other than
    the named ones. *)
Definition rest_properties (names : list string) (o : gmap string value)
    : gmap string value :=
  foldr delete o names.

(** [Object.keys]. *)
Definition Object_keys (o : gmap string value) : list string :=
  (map_to_list o).*1.

Definition unrecognized_event (names : list string) : ChangeEvent :=
  {| ce_eventName := UNRECOGNIZED_CONTENT_OPTIONS;
     ce_eventLevel := WARN;
     ce_message := "Experience content options contain unrecognized properties";
     ce_data :=
       VObj {[ "unrecognizedContentOptions" := VArr (VStr <$> names) ]} |}.

(** Modelled from the spec: [BaseExperience.transformContentOptions],
    of the base class that is not among the sources.  Unrecognized keys
    are reported in one WARN-level change event when there are any, and
    are forwarded next to the filtered options, not dropped. *)
Definition BaseExperience_transformContentOptions (fo : FrameOptions)
    (filteredOptions unrecognizedContentOptions : gmap string value)
    : M (gmap string value) :=
  let names := Object_keys unrecognizedContentOptions in
  _ ← (match names with
       | [] => mret tt
       | _ :: _ =>
           call_onChange fo (unrecognized_event names) {| frame := None |}
       end);
  mret (filteredOptions ∪ unrecognizedContentOptions).

Section DashboardExperience.

(** What the class takes from the rest of the SDK: the base class with
    its constructor, [send], [getInternalExperienceInfo] and
    [transformContentOptions], and the frame class. *)
Variables ControlOptions InternalDashboardExperience
          DashboardExperienceFrame : Type.
Variable BaseExperience_constructor :
  FrameOptions -> gmap string value -> ControlOptions -> M unit.
Variable send : EmbeddingMessageEvent -> M value.
Variable getInternalExperienceInfo :
  IDashboardExperience -> M (string * InternalDashboardExperience).
Variable transformContentOptions :
  gmap string value -> gmap string value -> M (gmap string value).
Variable new_DashboardExperienceFrame :
  FrameOptions -> ControlOptions -> gmap string value ->
  gmap string value -> InternalDashboardExperience -> string ->
  (EmbeddingEvents -> option ExperienceFrameMetadata ->
   option ExperienceFrameMetadata) ->
  M DashboardExperienceFrame.

(** The operations that unwrap a response; [await] is sequencing. *)
Definition getParameters : M value :=
  response ← send (new_EmbeddingMessageEvent GET_PARAMETERS VUndefined);
  mret (nullish_coalesce (opt_member response "message") (VArr [])).

Definition getSheets : M value :=
  response ← send (new_EmbeddingMessageEvent GET_SHEETS VUndefined);
  mret (nullish_coalesce (opt_member response "message") (VArr [])).

Definition getVisualActions (sheetId visualId : string) : M value :=
  response ← send (new_EmbeddingMessageEvent GET_VISUAL_ACTIONS
                     (VObj (<["SheetId" := VStr sheetId]>
                              (<["VisualId" := VStr visualId]> ∅))));
  mret (nullish_coalesce (opt_member response "message") (VArr [])).

Definition getSelectedSheetId : M value :=
  response ← send (new_EmbeddingMessageEvent GET_SELECTED_SHEET_ID
                     VUndefined);
  mret (nullish_coalesce (opt_member response "message") (VStr "")).

Definition getSheetVisuals (sheetId : string) : M value :=
  response ← send (new_EmbeddingMessageEvent GET_SHEET_VISUALS
                     (VObj (<["SheetId" := VStr sheetId]> ∅)));
  mret (nullish_coalesce (opt_member response "message") (VArr [])).

(** Content options become the query parameters that the static
    content expects. *)
Definition transformDashboardContentOptions
    (contentOptions : gmap string value) : M (gmap string value) :=
  let parameters := Get (VObj contentOptions) "parameters" in
  let locale := Get (VObj contentOptions) "locale" in
  let attributionOptions := Get (VObj contentOptions) "attributionOptions" in
  let sheetOptions := Get (VObj contentOptions) "sheetOptions" in
  let toolbarOptions := Get (VObj contentOptions) "toolbarOptions" in
  let unrecognizedContentOptions :=
    rest_properties recognized_options contentOptions in
  t ← transformContentOptions {[ "locale" := locale ]}
        unrecognizedContentOptions;
  t ← (match parameters with
       | VArr ps =>
           o ← reduce_parameters ps ∅;
           mret (<["parameters" := VObj o]> t)
       | _ => mret t
       end);
  let t :=
    if negb (strict_eq_true (opt_member attributionOptions "overlayContent"))
    then <["footerPaddingEnabled" := VBool true]> t else t in
  let t :=
    if ToBoolean
         (js_or (opt_member toolbarOptions "export")
                (opt_member (opt_member toolbarOptions "export") "print"))
    then <["printEnabled" := VBool true]> t else t in
  let t :=
    if negb (strict_eq_true (opt_member toolbarOptions "undoRedo"))
    then <["undoRedoDisabled" := VBool true]> t else t in
  let t :=
    if negb (strict_eq_true (opt_member toolbarOptions "reset"))
    then <["resetDisabled" := VBool true]> t else t in
  let t :=
    if strict_eq_true (opt_member toolbarOptions "bookmarks")
    then <["showBookmarksIcon" := VBool true]> t else t in
  t ← (if ToBoolean (opt_member sheetOptions "initialSheetId")
       then
         v ← member sheetOptions "initialSheetId";
         mret (<["sheetId" := v]> t)
       else mret t);
  t ← (if String.eqb (typeof (opt_member sheetOptions "singleSheet"))
                     "boolean"
       then
         v ← member sheetOptions "singleSheet";
         mret (<["sheetTabsDisabled" := v]> t)
       else mret t);
  let t :=
    if ToBoolean (opt_member sheetOptions "emitSizeChangedEventOnSheetChange")
    then <["resizeOnSheetChange" := VBool true]> t else t in
  mret t.

Record DashboardExperience := {
  experience : IDashboardExperience;
  internalExperience : InternalDashboardExperience;
  experienceFrame : DashboardExperienceFrame;
  experienceId : string
}.

(** The constructor.  The set of experience identifiers it is handed
    is the one of the world. *)
Definition new_DashboardExperience (frameOptions : FrameOptions)
    (contentOptions : gmap string value) (controlOptions : ControlOptions)
    : M DashboardExperience :=
  _ ← BaseExperience_constructor frameOptions contentOptions controlOptions;
  experience ← extractExperienceFromUrl frameOptions (url frameOptions);
  info ← getInternalExperienceInfo experience;
  transformed ← transformDashboardContentOptions contentOptions;
  experienceFrame ←
    new_DashboardExperienceFrame frameOptions controlOptions contentOptions
      transformed info.2 info.1 (interceptMessage frameOptions);
  mret {| experience := experience;
          internalExperience := info.2;
          experienceFrame := experienceFrame;
          experienceId := info.1 |}.

End DashboardExperience.

Arguments experience {_ _} _.
Arguments internalExperience {_ _} _.
Arguments experienceFrame {_ _} _.
Arguments experienceId {_ _} _.
Arguments new_DashboardExperience {_ _ _} _ _ _ _ _ _ _.

(** ** The URL grammar, stated on its own

    [https://{host}/embed/{guid}/dashboards/{dashboardId}], then the end
    of the URL or a query that starts with a question mark.  The fixed
    parts are read without regard to letter case, as the pattern's flag
    asks; [host] and [guid] are non-empty and free of slashes; the
    dashboard id is a non-empty run of word characters and hyphens. *)

Fixpoint fold_case (s : string) : string :=
  match s with
  | EmptyString => EmptyString
  | String c t => String (Canonicalize c) (fold_case t)
  end.

Fixpoint all_chars (f : ascii -> bool) (s : string) : bool :=
  match s with
  | EmptyString => true
  | String c t => f c && all_chars f t
  end.

Definition not_slash (c : ascii) : bool := negb (Ascii.eqb c "/").

Definition id_char (c : ascii) : bool := is_word c || Ascii.eqb c "-".

Definition segment (s : string) : Prop :=
  s <> "" /\ all_chars not_slash s = true.

Definition identifier (s : string) : Prop :=
  s <> "" /\ all_chars id_char s = true.

Definition query_or_end (s : string) : Prop :=
  s = "" \/ exists q, s = String "?" q.

Definition dashboard_url_parts (u host guid id tail : string) : Prop :=
  exists scheme embed dashboards,
    fold_case scheme = fold_case "https://" /\
    fold_case embed = fold_case "/embed/" /\
    fold_case dashboards = fold_case "/dashboards/" /\
    u = scheme +:+ host +:+ embed +:+ guid +:+ dashboards +:+ id +:+ tail /\
    segment host /\ segment guid /\ identifier id /\ query_or_end tail.

Definition DashboardUrl (u : string) : Prop :=
  exists host guid id tail, dashboard_url_parts u host guid id tail.

(** The same grammar read from left to right, each part as long as it
    can be: what the backtracking matcher comes down to on this pattern. *)
Fixpoint span (f : ascii -> bool) (s : string) : string * string :=
  match s with
  | EmptyString => (EmptyString, EmptyString)
  | String c t =>
      if f c then (String c (span f t).1, (span f t).2)
      else (EmptyString, s)
  end.

Definition nonempty_span (f : ascii -> bool) (s : string)
    : option (string * string) :=
  match span f s with
  | (EmptyString, _) => None
  | (a, b) => Some (a, b)
  end.

(** The dashboard id, the text of the second group and what follows it. *)
Definition scan_query (id s : string) : option (string * string * string) :=
  match s with
  | EmptyString => Some (id, "", "")
  | String c t =>
      if Ascii.eqb (Canonicalize "?") (Canonicalize c)
      then Some (id, "?", t)
      else None
  end.

Definition scan_id (s : string) : option (string * string * string) :=
  ds ← nonempty_span (class_matches false (CsUnion CsWord (CsChar "-"))) s;
  scan_query ds.1 ds.2.

Definition scan_dashboard_url (u : string)
    : option (string * string * string) :=
  s1 ← strip_prefix_ci "https://" u;
  hs ← nonempty_span (class_matches true (CsChar "/")) s1;
  s3 ← strip_prefix_ci "/embed/" hs.2;
  gs ← nonempty_span (class_matches true (CsChar "/")) s3;
  s5 ← strip_prefix_ci "/dashboards/" gs.2;
  scan_id s5.

(** ** The option transformation, step by step *)

(** No entry of the parameter array is [undefined] or [null], as the
    type [Parameter[]] asks; reading [Name] of such an entry throws. *)
Definition entries_defined (ps : list value) : bool :=
  forallb (fun p => match p with
                    | VUndefined | VNull => false
                    | _ => true
                    end) ps.

Definition parameters_typed (contentOptions : gmap string value) : Prop :=
  match Get (VObj contentOptions) "parameters" with
  | VArr ps => entries_defined ps = true
  | _ => True
  end.

(** The reduction without its failure case. *)
Definition parameters_object (ps : list value) : gmap string value :=
  foldl (fun acc p => <[ToString (Get p "Name") := Get p "Values"]> acc) ∅ ps.

(** The assignments made after the parameters, as one function of the
    object they are made to. *)
Definition assign_options (attributionOptions sheetOptions toolbarOptions
    : value) (t : gmap string value) : gmap string value :=
  let t :=
    if negb (strict_eq_true (opt_member attributionOptions "overlayContent"))
    then <["footerPaddingEnabled" := VBool true]> t else t in
  let t :=
    if ToBoolean
         (js_or (opt_member toolbarOptions "export")
                (opt_member (opt_member toolbarOptions "export") "print"))
    then <["printEnabled" := VBool true]> t else t in
  let t :=
    if negb (strict_eq_true (opt_member toolbarOptions "undoRedo"))
    then <["undoRedoDisabled" := VBool true]> t else t in
  let t :=
    if negb (strict_eq_true (opt_member toolbarOptions "reset"))
    then <["resetDisabled" := VBool true]> t else t in
  let t :=
    if strict_eq_true (opt_member toolbarOptions "bookmarks")
    then <["showBookmarksIcon" := VBool true]> t else t in
  let t :=
    if ToBoolean (opt_member sheetOptions "initialSheetId")
    then <["sheetId" := opt_member sheetOptions "initialSheetId"]> t else t in
  let t :=
    if String.eqb (typeof (opt_member sheetOptions "singleSheet")) "boolean"
    then <["sheetTabsDisabled" := opt_member sheetOptions "singleSheet"]> t
    else t in
  let t :=
    if ToBoolean (opt_member sheetOptions "emitSizeChangedEventOnSheetChange")
    then <["resizeOnSheetChange" := VBool true]> t else t in
  t.

(** The names the assignments write. *)
Definition assigned_names : list string :=
  ["footerPaddingEnabled"; "printEnabled"; "undoRedoDisabled";
   "resetDisabled"; "showBookmarksIcon"; "sheetId"; "sheetTabsDisabled";
   "resizeOnSheetChange"].

(** The object that the parameters step and the assignments make of the
    one that [transformContentOptions] returned. *)
Definition transformed_from (contentOptions t0 : gmap string value)
    : gmap string value :=
  assign_options (Get (VObj contentOptions) "attributionOptions")
    (Get (VObj contentOptions) "sheetOptions")
    (Get (VObj contentOptions) "toolbarOptions")
    match Get (VObj contentOptions) "parameters" with
    | VArr ps => <["parameters" := VObj (parameters_object ps)]> t0
    | _ => t0
    end.

(** The state that a successful scan leaves the matcher in. *)
Definition set_groups (iqt : string * string * string)
    (caps : list (option string)) : MatchState :=
  {| rest := iqt.2;
     captures := <[2 := Some iqt.1.2]> (<[1 := Some iqt.1.1]> caps) |}.


(** ** Fixtures of the test suite *)

Definition TEST_DASHBOARD_URL : string :=
  "https://test.amazon.com/embed/guid/dashboards/testDashboardId".

Definition TEST_VISUAL_URL : string :=
  "https://test.amazon.com/embed/guid/dashboards/testDashboardId/sheets/testSheetId/visuals/testVisualId".

Definition test_frameOptions : FrameOptions :=
  {| url := TEST_DASHBOARD_URL;
     onChange := Some "onChangeSpy";
     resizeHeightOnSizeChangedEvent := VUndefined |}.

Definition new_world : World :=
  {| onChangeCalls := []; experienceIdentifiers := ∅ |}.

(** ** Responses without a payload *)

Definition nullish (v : value) : Prop := v = VUndefined \/ v = VNull.

(** The response is absent, or it is there and its [message] is absent. *)
Definition payload_absent (response : value) : Prop :=
  nullish response \/ nullish (Get response "message").

(** * Properties *)

(** ** Strings *)

Lemma append_cons c (a b : string) : String c a +:+ b = String c (a +:+ b).
Proof. reflexivity. Qed.

Lemma append_nil_l (b : string) : "" +:+ b = b.
Proof. reflexivity. Qed.

Ltac str_simpl := simpl; rewrite ?append_cons, ?append_nil_l; simpl.

Lemma append_nil_r (s : string) : s +:+ "" = s.
Proof. induction s; str_simpl; congruence. Qed.

Lemma append_assoc (a b c : string) : (a +:+ b) +:+ c = a +:+ (b +:+ c).
Proof. induction a; str_simpl; congruence. Qed.

Lemma length_append (a b : string) :
  String.length (a +:+ b) = String.length a + String.length b.
Proof. induction a; str_simpl; congruence. Qed.

Lemma substring_append_l (a b : string) :
  substring 0 (String.length a) (a +:+ b) = a.
Proof.
  induction a as [|c a IH]; str_simpl; [by destruct b | by rewrite IH].
Qed.

Lemma consumed_append (a b : string) : consumed (a +:+ b) b = a.
Proof.
  unfold consumed. rewrite length_append.
  replace (String.length a + String.length b - String.length b)
    with (String.length a) by lia.
  apply substring_append_l.
Qed.

Lemma consumed_cons c (t : string) : consumed (String c t) t = String c "".
Proof. apply (consumed_append (String c "") t). Qed.

Lemma span_append f (s : string) : (span f s).1 +:+ (span f s).2 = s.
Proof.
  induction s as [|c t IH]; simpl; [done|].
  destruct (f c); str_simpl; congruence.
Qed.

Lemma span_all f (s : string) : all_chars f (span f s).1 = true.
Proof.
  induction s as [|c t IH]; simpl; [done|].
  destruct (f c) eqn:E; simpl; [by rewrite E|done].
Qed.

Lemma span_stop f (s : string) c t : (span f s).2 = String c t -> f c = false.
Proof.
  induction s as [|a s IH]; simpl; [done|].
  destruct (f a) eqn:E; simpl; [done|]. by intros [= <- _].
Qed.

Lemma span_unique f (a b : string) :
  all_chars f a = true ->
  (forall c t, b = String c t -> f c = false) ->
  span f (a +:+ b) = (a, b).
Proof.
  intros Ha Hb. induction a as [|c a IH]; str_simpl; simpl in Ha.
  - destruct b as [|c t]; simpl; [done|]. by rewrite (Hb c t).
  - apply andb_prop in Ha as [Hc Ha]. rewrite Hc, IH; done.
Qed.

Lemma strip_prefix_ci_append (p p' t : string) :
  fold_case p' = fold_case p -> strip_prefix_ci p (p' +:+ t) = Some t.
Proof.
  revert p'. induction p as [|a p IH]; intros [|c p']; str_simpl; try done.
  intros [= Hc Hp]. rewrite Hc, Ascii.eqb_refl. by apply IH.
Qed.

Lemma strip_prefix_ci_inv (p s t : string) :
  strip_prefix_ci p s = Some t ->
  exists p', s = p' +:+ t /\ fold_case p' = fold_case p.
Proof.
  revert s. induction p as [|a p IH]; intros s; simpl.
  - intros [= ->]. by exists "".
  - destruct s as [|c s]; [done|].
    destruct (Ascii.eqb _ _) eqn:E; [|done].
    intros (p' & -> & Hp)%IH. apply Ascii.eqb_eq in E.
    exists (String c p'). str_simpl. by rewrite Hp, E.
Qed.

(** ** The matcher on the dashboard pattern *)

Lemma star_greedy f caps (s : string) k :
  (forall c t, f c = true ->
     k {| rest := String c t; captures := caps |} = None) ->
  star f caps s k = k {| rest := (span f s).2; captures := caps |}.
Proof.
  intros Hk. induction s as [|c t IH]; simpl; [done|].
  destruct (f c) eqn:E; simpl; [|done].
  rewrite IH. destruct (k {| rest := (span f t).2; captures := caps |}) eqn:K; [done|].
  by apply Hk.
Qed.

Lemma matcher_Plus_greedy input invert cs x k :
  (forall c t, class_matches invert cs c = true ->
     k {| rest := String c t; captures := captures x |} = None) ->
  matcher input (Plus invert cs) x k =
  match nonempty_span (class_matches invert cs) (rest x) with
  | Some ab => k {| rest := ab.2; captures := captures x |}
  | None => None
  end.
Proof.
  intros Hk. unfold nonempty_span. simpl.
  destruct (rest x) as [|c t]; simpl; [done|].
  destruct (class_matches invert cs c) eqn:E; simpl; [|done].
  by apply star_greedy.
Qed.

Lemma slash_class_stops c :
  class_matches true (CsChar "/") c = true ->
  Ascii.eqb (Canonicalize "/") (Canonicalize c) = false.
Proof.
  unfold class_matches. cbn [CharSet_has].
  by destruct (Ascii.eqb (Canonicalize "/") (Canonicalize c)).
Qed.

Lemma id_class_stops c :
  class_matches false (CsUnion CsWord (CsChar "-")) c = true ->
  Ascii.eqb (Canonicalize "?") (Canonicalize c) = false.
Proof. destruct c as [[] [] [] [] [] [] [] []]; by vm_compute. Qed.

Lemma matcher_Seq input r1 r2 x k :
  matcher input (Seq r1 r2) x k =
  matcher input r1 x (fun y => matcher input r2 y k).
Proof. reflexivity. Qed.

Lemma matcher_Group input i r x k :
  matcher input (Group i r) x k =
  matcher input r x
    (fun y => k {| rest := rest y;
                   captures :=
                     <[i := Some (consumed (rest x) (rest y))]> (captures y) |}).
Proof. reflexivity. Qed.

Lemma matcher_Bol input x k :
  matcher input Bol x k =
  if (String.length (rest x) =? String.length input)%nat then k x else None.
Proof. reflexivity. Qed.

Lemma matcher_Lit input p x k :
  matcher input (Lit p) x k =
  match strip_prefix_ci p (rest x) with
  | Some t => k {| rest := t; captures := captures x |}
  | None => None
  end.
Proof. reflexivity. Qed.

Lemma question_mark_only c :
  Ascii.eqb (Canonicalize "?") (Canonicalize c) = true -> c = "?"%char.
Proof. destruct c as [[] [] [] [] [] [] [] []]; by vm_compute. Qed.

Lemma matcher_query input id x :
  matcher input (Group 2 (Alt (Lit "?") Eol)) x Some =
  (fun iqt => {| rest := iqt.2;
                 captures := <[2 := Some iqt.1.2]> (captures x) |})
    <$> scan_query id (rest x).
Proof.
  cbn [matcher]. unfold scan_query.
  destruct (rest x) as [|c t] eqn:R; cbn [strip_prefix_ci captures rest].
  - done.
  - destruct (Ascii.eqb _ _) eqn:E; [|done].
    apply question_mark_only in E as ->.
    by rewrite consumed_cons.
Qed.

Lemma matcher_id input x :
  matcher input
    (Seq (Group 1 (Plus false (CsUnion CsWord (CsChar "-"))))
         (Group 2 (Alt (Lit "?") Eol))) x Some =
  (fun iqt => set_groups iqt (captures x)) <$> scan_id (rest x).
Proof.
  rewrite matcher_Seq, matcher_Group, matcher_Plus_greedy.
  - unfold scan_id.
    pose proof (span_append (class_matches false (CsUnion CsWord (CsChar "-")))
                  (rest x)) as Hs.
    unfold nonempty_span.
    destruct (span _ (rest x)) as [a b] eqn:S. simpl in Hs.
    destruct a as [|c a]; [done|]. cbn [mbind option_bind fst snd].
    rewrite (matcher_query input (String c a)). cbn [rest captures].
    rewrite <- Hs, consumed_append. unfold scan_query.
    destruct b as [|c' b]; [done|]. by destruct (Ascii.eqb _ _).
  - intros c t Hc. rewrite (matcher_query input ""). cbn [rest scan_query].
    by rewrite (id_class_stops c Hc).
Qed.

Lemma matcher_dashboard input (s : string) caps :
  matcher input dashboard_url_pattern {| rest := s; captures := caps |} Some =
  if (String.length s =? String.length input)%nat
  then (fun iqt => set_groups iqt caps) <$> scan_dashboard_url s
  else None.
Proof.
  assert (Hstop : forall p r c t cs,
             class_matches true (CsChar "/") c = true ->
             matcher input (Seq (Lit (String "/" p)) r)
               {| rest := String c t; captures := cs |} Some = None).
  { intros p r c t cs Hc. rewrite matcher_Seq, matcher_Lit.
    cbn [strip_prefix_ci rest]. by rewrite (slash_class_stops c Hc). }
  unfold dashboard_url_pattern, scan_dashboard_url.
  rewrite matcher_Seq, matcher_Bol. cbn [rest].
  destruct (_ =? _)%nat; [|done].
  rewrite matcher_Seq, matcher_Lit. cbn [rest captures].
  destruct (strip_prefix_ci "https://" s) as [s1|]; [|done].
  cbn [mbind option_bind].
  rewrite matcher_Seq, matcher_Plus_greedy by (intros; by apply Hstop).
  cbn [rest captures].
  destruct (nonempty_span _ s1) as [hs|]; [|done].
  cbn [mbind option_bind].
  rewrite matcher_Seq, matcher_Lit. cbn [rest captures].
  destruct (strip_prefix_ci "/embed/" hs.2) as [s3|]; [|done].
  cbn [mbind option_bind].
  rewrite matcher_Seq, matcher_Plus_greedy by (intros; by apply Hstop).
  cbn [rest captures].
  destruct (nonempty_span _ s3) as [gs|]; [|done].
  cbn [mbind option_bind].
  rewrite matcher_Seq, matcher_Lit. cbn [rest captures].
  destruct (strip_prefix_ci "/dashboards/" gs.2) as [s5|]; [|done].
  cbn [mbind option_bind].
  by rewrite matcher_id.
Qed.

Lemma exec_from_later input ncap (s : string) :
  String.length s < String.length input ->
  exec_from input dashboard_url_pattern ncap s = None.
Proof.
  intros Hlt. induction s as [|c s IH]; cbn [exec_from];
    rewrite matcher_dashboard;
    (replace (_ =? _)%nat with false by (symmetry; apply Nat.eqb_neq; lia)).
  - done.
  - apply IH. simpl in Hlt. lia.
Qed.

(** [exec] on the dashboard pattern is the left-to-right scan. *)
Lemma exec_dashboard (u : string) :
  exec dashboard_url_pattern 2 u =
  (fun iqt => [VStr (consumed u iqt.2); VStr iqt.1.1; VStr iqt.1.2])
    <$> scan_dashboard_url u.
Proof.
  unfold exec. destruct u as [|c u]; cbn [exec_from];
    rewrite matcher_dashboard, Nat.eqb_refl;
    destruct (scan_dashboard_url _) as [[[i q] t]|]; try done.
  cbn [fmap option_fmap option_map]. apply exec_from_later. simpl. lia.
Qed.

(** ** The scan and the grammar *)

Lemma slash_class c : class_matches true (CsChar "/") c = not_slash c.
Proof. destruct c as [[] [] [] [] [] [] [] []]; by vm_compute. Qed.

Lemma id_class c :
  class_matches false (CsUnion CsWord (CsChar "-")) c = id_char c.
Proof. destruct c as [[] [] [] [] [] [] [] []]; by vm_compute. Qed.

Lemma all_chars_ext f g (s : string) :
  (forall c, f c = g c) -> all_chars f s = all_chars g s.
Proof. intros E. induction s as [|c s IH]; simpl; [done|]. by rewrite E, IH. Qed.

Lemma nonempty_span_inv f (s a b : string) :
  nonempty_span f s = Some (a, b) ->
  a <> "" /\ all_chars f a = true /\ s = a +:+ b /\
  (forall c t, b = String c t -> f c = false).
Proof.
  unfold nonempty_span. intros H.
  pose proof (span_append f s) as Ha. pose proof (span_all f s) as Hall.
  pose proof (span_stop f s) as Hstop.
  destruct (span f s) as [a' b']. simpl in *.
  destruct a' as [|c a']; [done|]. injection H as <- <-.
  repeat split; [done|done|done|]. intros c' t ->. eauto.
Qed.

Lemma nonempty_span_append f (a b : string) :
  a <> "" -> all_chars f a = true ->
  (forall c t, b = String c t -> f c = false) ->
  nonempty_span f (a +:+ b) = Some (a, b).
Proof.
  intros Hne Ha Hb. unfold nonempty_span. rewrite span_unique by done.
  by destruct a.
Qed.

Lemma fold_case_head a (p p' : string) :
  fold_case p' = fold_case (String a p) ->
  exists c p'', p' = String c p'' /\ Canonicalize c = Canonicalize a.
Proof. destruct p' as [|c p'']; simpl; [done|]. intros [= ? _]. eauto. Qed.

Lemma scan_sound (u id q t : string) :
  scan_dashboard_url u = Some (id, q, t) ->
  exists host guid tail, dashboard_url_parts u host guid id tail.
Proof.
  unfold scan_dashboard_url, scan_id. intros H.
  destruct (strip_prefix_ci "https://" u) as [s1|] eqn:E1; [|done].
  cbn [mbind option_bind] in H.
  destruct (nonempty_span _ s1) as [[host s2]|] eqn:E2; [|done].
  cbn [mbind option_bind snd] in H.
  destruct (strip_prefix_ci "/embed/" s2) as [s3|] eqn:E3; [|done].
  cbn [mbind option_bind] in H.
  destruct (nonempty_span _ s3) as [[guid s4]|] eqn:E4; [|done].
  cbn [mbind option_bind snd] in H.
  destruct (strip_prefix_ci "/dashboards/" s4) as [s5|] eqn:E5; [|done].
  cbn [mbind option_bind] in H.
  destruct (nonempty_span _ s5) as [[id' tail]|] eqn:E6; [|done].
  cbn [mbind option_bind fst snd] in H.
  apply strip_prefix_ci_inv in E1 as (scheme & -> & Hscheme).
  apply strip_prefix_ci_inv in E3 as (embed & -> & Hembed).
  apply strip_prefix_ci_inv in E5 as (dashboards & -> & Hdash).
  apply nonempty_span_inv in E2 as (Hh1 & Hh2 & -> & _).
  apply nonempty_span_inv in E4 as (Hg1 & Hg2 & -> & _).
  apply nonempty_span_inv in E6 as (Hi1 & Hi2 & -> & _).
  rewrite (all_chars_ext _ _ _ slash_class) in Hh2.
  rewrite (all_chars_ext _ _ _ slash_class) in Hg2.
  rewrite (all_chars_ext _ _ _ id_class) in Hi2.
  assert (id' = id /\ query_or_end tail) as [-> Htail].
  { unfold scan_query in H. destruct tail as [|c tail].
    - injection H as <- _ _. split; [done|by left].
    - destruct (Ascii.eqb _ _) eqn:E; [|done].
      apply question_mark_only in E as ->. injection H as <- _ _.
      split; [done|right; eauto]. }
  exists host, guid, tail, scheme, embed, dashboards.
  rewrite <- !append_assoc. rewrite !append_assoc.
  repeat split; done.
Qed.

Lemma slash_head_stops (p p' rest' : string) :
  fold_case p' = fold_case (String "/" p) ->
  forall c t, p' +:+ rest' = String c t ->
              class_matches true (CsChar "/") c = false.
Proof.
  intros (c' & p'' & -> & Hc)%fold_case_head c t [= <- _].
  unfold class_matches. cbn [CharSet_has]. by rewrite Hc, Ascii.eqb_refl.
Qed.

Lemma scan_complete (u host guid id tail : string) :
  dashboard_url_parts u host guid id tail ->
  exists q t, scan_dashboard_url u = Some (id, q, t).
Proof.
  intros (scheme & embed & dashboards & Hs & He & Hd & -> &
          [Hh1 Hh2] & [Hg1 Hg2] & [Hi1 Hi2] & Htail).
  rewrite <- (all_chars_ext _ _ _ slash_class) in Hh2.
  rewrite <- (all_chars_ext _ _ _ slash_class) in Hg2.
  rewrite <- (all_chars_ext _ _ _ id_class) in Hi2.
  unfold scan_dashboard_url, scan_id.
  rewrite (strip_prefix_ci_append _ _ _ Hs). cbn [mbind option_bind].
  rewrite nonempty_span_append
    by (try done; by apply (slash_head_stops "embed/")).
  cbn [mbind option_bind snd].
  rewrite (strip_prefix_ci_append _ _ _ He). cbn [mbind option_bind].
  rewrite nonempty_span_append
    by (try done; by apply (slash_head_stops "dashboards/")).
  cbn [mbind option_bind snd].
  rewrite (strip_prefix_ci_append _ _ _ Hd). cbn [mbind option_bind].
  destruct Htail as [->|[q ->]].
  - rewrite nonempty_span_append by done. simpl. eauto.
  - rewrite nonempty_span_append; [simpl; eauto|done|done|].
    by intros c t [= <- _].
Qed.

(** The pattern accepts exactly the URLs of the grammar. *)
Lemma scan_DashboardUrl (u : string) :
  DashboardUrl u <-> is_Some (scan_dashboard_url u).
Proof.
  split.
  - intros (host & guid & id & tail & H).
    destruct (scan_complete _ _ _ _ _ H) as (q & t & ->). eauto.
  - intros [[[id q] t] H]. destruct (scan_sound _ _ _ _ H) as (h & g & tl & ?).
    by exists h, g, id, tl.
Qed.

Lemma not_DashboardUrl_scan (u : string) :
  scan_dashboard_url u = None -> ~ DashboardUrl u.
Proof. intros H [x Hx]%scan_DashboardUrl. congruence. Qed.

(** After the dashboard id of a URL laid out as the grammar asks, the
    scan only has the end or the question mark left to find. *)
Lemma scan_after_id (scheme embed dashboards host guid id s : string) :
  fold_case scheme = fold_case "https://" ->
  fold_case embed = fold_case "/embed/" ->
  fold_case dashboards = fold_case "/dashboards/" ->
  segment host -> segment guid -> identifier id ->
  (forall c t, s = String c t -> id_char c = false) ->
  scan_dashboard_url
    (scheme +:+ host +:+ embed +:+ guid +:+ dashboards +:+ id +:+ s)
  = scan_query id s.
Proof.
  intros Hs He Hd [Hh1 Hh2] [Hg1 Hg2] [Hi1 Hi2] Hstop.
  rewrite <- (all_chars_ext _ _ _ slash_class) in Hh2.
  rewrite <- (all_chars_ext _ _ _ slash_class) in Hg2.
  rewrite <- (all_chars_ext _ _ _ id_class) in Hi2.
  unfold scan_dashboard_url, scan_id.
  rewrite (strip_prefix_ci_append _ _ _ Hs). cbn [mbind option_bind].
  rewrite nonempty_span_append
    by (try done; by apply (slash_head_stops "embed/")).
  cbn [mbind option_bind snd].
  rewrite (strip_prefix_ci_append _ _ _ He). cbn [mbind option_bind].
  rewrite nonempty_span_append
    by (try done; by apply (slash_head_stops "dashboards/")).
  cbn [mbind option_bind snd].
  rewrite (strip_prefix_ci_append _ _ _ Hd). cbn [mbind option_bind].
  rewrite nonempty_span_append; [done|done|done|].
  intros c t E. rewrite id_class. eauto.
Qed.

(** ** extractExperienceFromUrl *)

Lemma extractExperienceFromUrl_scan fo (u : string) :
  extractExperienceFromUrl fo u =
  match scan_dashboard_url u with
  | Some iqt =>
      mret {| experienceType := DASHBOARD; dashboardId := VStr iqt.1.1 |}
  | None =>
      _ ← call_onChange fo (invalid_url_event u) {| frame := None |};
      throw (Error "Invalid dashboard experience URL")
  end.
Proof.
  unfold extractExperienceFromUrl. rewrite exec_dashboard.
  by destruct (scan_dashboard_url u).
Qed.

Lemma call_onChange_run fo ev md w :
  call_onChange fo ev md w =
  (Return tt,
   {| onChangeCalls :=
        onChangeCalls w ++
          match onChange fo with
          | Some f => [{| callee := f; changeEvent := ev; metadata := md |}]
          | None => []
          end;
      experienceIdentifiers := experienceIdentifiers w |}).
Proof.
  unfold call_onChange. destruct (onChange fo); [done|].
  destruct w. unfold ret. simpl. by rewrite app_nil_r.
Qed.

(** C5.  A URL laid out as
    [https://{host}/embed/{guid}/dashboards/{dashboardId}], with a
    dashboard id of word characters and hyphens, then the end or a
    question mark and a query: [extractExperienceFromUrl] returns the
    experience of type DASHBOARD whose [dashboardId] is the segment after
    [/dashboards/], calling nobody.  With [/sheets/.../visuals/...] after
    the dashboard id, the URL of a visual, the string is not in the
    dashboard grammar. *)
Theorem extractExperienceFromUrl_dashboard fo w
    (scheme embed dashboards host guid id : string) :
  fold_case scheme = fold_case "https://" ->
  fold_case embed = fold_case "/embed/" ->
  fold_case dashboards = fold_case "/dashboards/" ->
  segment host -> segment guid -> identifier id ->
  let base := scheme +:+ host +:+ embed +:+ guid +:+ dashboards +:+ id in
  (forall tail, query_or_end tail ->
     extractExperienceFromUrl fo (base +:+ tail) w =
     (Return {| experienceType := DASHBOARD; dashboardId := VStr id |}, w))
  /\ (forall sheet visual,
        ~ DashboardUrl
            (base +:+ "/sheets/" +:+ sheet +:+ "/visuals/" +:+ visual)).
Proof.
  intros Hs He Hd Hh Hg Hi base.
  assert (Hscan : forall s, (forall c t, s = String c t -> id_char c = false) ->
                            scan_dashboard_url (base +:+ s) = scan_query id s).
  { intros s Hstop. unfold base. rewrite !append_assoc.
    by apply scan_after_id. }
  split.
  - intros tail Htail. rewrite extractExperienceFromUrl_scan, Hscan.
    + by destruct Htail as [->|[q ->]].
    + intros c t ->. by destruct Htail as [?|[q [= -> _]]].
  - intros sheet visual. apply not_DashboardUrl_scan.
    rewrite Hscan; [done|]. by intros c t [= <- _].
Qed.

Lemma extractExperienceFromUrl_dashboard_witness :
  extractExperienceFromUrl test_frameOptions
    "https://test.amazon.com/embed/guid/dashboards/testDashboardId?test=test"
    new_world =
  (Return {| experienceType := DASHBOARD;
             dashboardId := VStr "testDashboardId" |}, new_world)
  /\ ~ DashboardUrl TEST_VISUAL_URL.
Proof.
  destruct (extractExperienceFromUrl_dashboard test_frameOptions new_world
              "https://" "/embed/" "/dashboards/"
              "test.amazon.com" "guid" "testDashboardId")
    as [Hdashboard Hvisual];
    try reflexivity; try (split; [discriminate|reflexivity]).
  split.
  - apply (Hdashboard "?test=test"). right. exists "test=test". reflexivity.
  - apply (Hvisual "testSheetId" "testVisualId").
Defined.

(** ** The constructor *)

(** C1.  When the URL is not in the dashboard grammar, and the base
    constructor has returned, constructing a DashboardExperience throws
    the error "Invalid dashboard experience URL".  By then the host's
    [onChange], when there is one, has received one more call: an
    INVALID_URL change event at ERROR level that carries the URL.
    Nothing else has happened: no experience is returned, the set of
    experience identifiers is as the base constructor left it, and
    neither the registration nor the frame constructor has run. *)
Theorem new_DashboardExperience_invalid_url
    {ControlOptions InternalDashboardExperience DashboardExperienceFrame}
    (BaseExperience_constructor :
       FrameOptions -> gmap string value -> ControlOptions -> M unit)
    (getInternalExperienceInfo :
       IDashboardExperience -> M (string * InternalDashboardExperience))
    (transformContentOptions :
       gmap string value -> gmap string value -> M (gmap string value))
    (new_DashboardExperienceFrame :
       FrameOptions -> ControlOptions -> gmap string value ->
       gmap string value -> InternalDashboardExperience -> string ->
       (EmbeddingEvents -> option ExperienceFrameMetadata ->
        option ExperienceFrameMetadata) ->
       M DashboardExperienceFrame)
    frameOptions contentOptions controlOptions w w1 :
  BaseExperience_constructor frameOptions contentOptions controlOptions w
    = (Return tt, w1) ->
  ~ DashboardUrl (url frameOptions) ->
  new_DashboardExperience BaseExperience_constructor
    getInternalExperienceInfo transformContentOptions
    new_DashboardExperienceFrame frameOptions contentOptions controlOptions w
  = (Throw (Error "Invalid dashboard experience URL"),
     {| onChangeCalls :=
          onChangeCalls w1 ++
            match onChange frameOptions with
            | Some f =>
                [{| callee := f;
                    changeEvent :=
                      {| ce_eventName := INVALID_URL;
                         ce_eventLevel := ERROR;
                         ce_message := "Invalid dashboard experience url";
                         ce_data :=
                           VObj {[ "url" := VStr (url frameOptions) ]} |};
                    metadata := {| frame := None |} |}]
            | None => []
            end;
        experienceIdentifiers := experienceIdentifiers w1 |}).
Proof.
  intros Hbase Hurl. unfold new_DashboardExperience.
  unfold mbind, M_bind, bind. rewrite Hbase.
  rewrite extractExperienceFromUrl_scan.
  destruct (scan_dashboard_url (url frameOptions)) eqn:E.
  - destruct Hurl. apply scan_DashboardUrl. by rewrite E.
  - unfold mbind, M_bind, bind. by rewrite call_onChange_run.
Qed.

Lemma new_DashboardExperience_invalid_url_witness :
  new_DashboardExperience
    (fun _ _ (_ : unit) => mret tt)
    (fun _ => mret ("testDashboardId", tt))
    (BaseExperience_transformContentOptions test_frameOptions)
    (fun _ _ _ _ (_ : unit) _ _ => mret tt)
    {| url := TEST_VISUAL_URL;
       onChange := Some "onChangeSpy";
       resizeHeightOnSizeChangedEvent := VUndefined |}
    ∅ tt new_world
  = (Throw (Error "Invalid dashboard experience URL"),
     {| onChangeCalls :=
          [{| callee := "onChangeSpy";
              changeEvent :=
                {| ce_eventName := INVALID_URL;
                   ce_eventLevel := ERROR;
                   ce_message := "Invalid dashboard experience url";
                   ce_data := VObj {[ "url" := VStr TEST_VISUAL_URL ]} |};
              metadata := {| frame := None |} |}];
        experienceIdentifiers := ∅ |}).
Proof.
  apply (new_DashboardExperience_invalid_url
           (fun _ _ (_ : unit) => mret tt)
           (fun _ => mret ("testDashboardId", tt))
           (BaseExperience_transformContentOptions test_frameOptions)
           (fun _ _ _ _ (_ : unit) _ _ => mret tt)
           {| url := TEST_VISUAL_URL;
              onChange := Some "onChangeSpy";
              resizeHeightOnSizeChangedEvent := VUndefined |}
           ∅ tt new_world new_world).
  - reflexivity.
  - apply not_DashboardUrl_scan. reflexivity.
Defined.

(** ** The facade *)

Lemma payload_absent_unwrap response fallback :
  payload_absent response ->
  nullish_coalesce (opt_member response "message") fallback = fallback.
Proof.
  intros [[-> | ->] | H]; [done..|].
  unfold opt_member. destruct response; try done.
  all: by destruct H as [-> | ->].
Qed.

(** C3.  When [send] resolves to a response that is absent or has no
    payload, [getParameters], [getSheets], [getVisualActions] and
    [getSheetVisuals] resolve to the empty list and [getSelectedSheetId]
    to the empty string: each of them returns, none throws, and the
    world is as [send] left it. *)
Theorem facade_payload_absent (send : EmbeddingMessageEvent -> M value)
    (w : World) (sheetId visualId : string) :
  (forall ev, exists response,
      (send ev w).1 = Return response /\ payload_absent response) ->
  getParameters send w =
    (Return (VArr []),
     (send (new_EmbeddingMessageEvent GET_PARAMETERS VUndefined) w).2)
  /\ getSheets send w =
       (Return (VArr []),
        (send (new_EmbeddingMessageEvent GET_SHEETS VUndefined) w).2)
  /\ getVisualActions send sheetId visualId w =
       (Return (VArr []),
        (send (new_EmbeddingMessageEvent GET_VISUAL_ACTIONS
                 (VObj (<["SheetId" := VStr sheetId]>
                          (<["VisualId" := VStr visualId]> ∅)))) w).2)
  /\ getSheetVisuals send sheetId w =
       (Return (VArr []),
        (send (new_EmbeddingMessageEvent GET_SHEET_VISUALS
                 (VObj (<["SheetId" := VStr sheetId]> ∅))) w).2)
  /\ getSelectedSheetId send w =
       (Return (VStr ""),
        (send (new_EmbeddingMessageEvent GET_SELECTED_SHEET_ID VUndefined)
           w).2).
Proof.
  intros Hsend.
  assert (Hrun : forall ev fallback,
             (response ← send ev;
              mret (nullish_coalesce (opt_member response "message")
                      fallback)) w
             = (Return fallback, (send ev w).2)).
  { intros ev fallback. destruct (Hsend ev) as (response & Hr & Habs).
    unfold mbind, M_bind, bind.
    destruct (send ev w) as [o w']. simpl in Hr. subst o.
    unfold mret, M_ret, ret. by rewrite payload_absent_unwrap. }
  repeat split; apply Hrun.
Qed.

Lemma facade_payload_absent_witness :
  getParameters (fun _ => mret VUndefined) new_world
    = (Return (VArr []), new_world)
  /\ getSelectedSheetId (fun _ => mret VUndefined) new_world
     = (Return (VStr ""), new_world).
Proof.
  destruct (facade_payload_absent (fun _ => mret VUndefined) new_world
              "testSheetId" "testVisualId") as (Hparameters & _ & _ & _ & Hsheet).
  - intros ev. exists VUndefined. split; [reflexivity|]. left. left. reflexivity.
  - split; [exact Hparameters | exact Hsheet].
Defined.

(** ** The interception hook *)



(** ** The option transformation *)


Lemma member_defined v k :
  v <> VUndefined -> v <> VNull -> member v k = mret (opt_member v k).
Proof. by destruct v. Qed.

Lemma member_truthy v k :
  ToBoolean (opt_member v k) = true -> member v k = mret (opt_member v k).
Proof. by destruct v. Qed.

Lemma member_boolean v k :
  String.eqb (typeof (opt_member v k)) "boolean" = true ->
  member v k = mret (opt_member v k).
Proof. by destruct v. Qed.

Lemma reduce_parameters_run ps acc w :
  entries_defined ps = true ->
  reduce_parameters ps acc w =
  (Return (foldl (fun acc p =>
                    <[ToString (Get p "Name") := Get p "Values"]> acc) acc ps),
   w).
Proof.
  revert acc. induction ps as [|p ps IH]; intros acc Hps; [done|].
  simpl in Hps. apply andb_prop in Hps as [Hp Hps].
  cbn [reduce_parameters foldl].
  rewrite !member_defined by (by destruct p).
  unfold mbind, M_bind, bind, mret, M_ret, ret, opt_member.
  rewrite IH by done. by destruct p.
Qed.

(** A well-typed run of the transformation: what the helper returned,
    then the parameters, then the assignments. *)
Lemma transformDashboardContentOptions_run helper contentOptions w t0 w1 :
  helper {[ "locale" := Get (VObj contentOptions) "locale" ]}
    (rest_properties recognized_options contentOptions) w = (Return t0, w1) ->
  parameters_typed contentOptions ->
  transformDashboardContentOptions helper contentOptions w =
  (Return (transformed_from contentOptions t0), w1).
Proof.
  intros Hh Hp. unfold transformDashboardContentOptions, transformed_from,
    assign_options, parameters_typed in *.
  unfold mbind at 1, M_bind at 1, bind at 1. rewrite Hh.
  set (so := Get (VObj contentOptions) "sheetOptions").
  set (t1 := match Get (VObj contentOptions) "parameters" with
             | VArr ps => <["parameters" := VObj (parameters_object ps)]> t0
             | _ => t0
             end).
  assert (Hpar : (match Get (VObj contentOptions) "parameters" with
                  | VArr ps =>
                      o ← reduce_parameters ps ∅;
                      mret (<["parameters" := VObj o]> t0)
                  | _ => mret t0
                  end) w1 = (Return t1, w1)).
  { unfold t1. destruct (Get (VObj contentOptions) "parameters"); try done.
    unfold mbind, M_bind, bind. by rewrite reduce_parameters_run. }
  unfold mbind at 1, M_bind at 1, bind at 1. rewrite Hpar. clear Hpar.
  destruct (ToBoolean (opt_member so "initialSheetId")) eqn:E1;
    destruct (String.eqb (typeof (opt_member so "singleSheet")) "boolean")
      eqn:E2;
    rewrite ?(member_truthy _ _ E1), ?(member_boolean _ _ E2); done.
Qed.

Lemma lookup_if_insert_ne (b : bool) (k k' : string) (v : value)
    (t : gmap string value) :
  k <> k' -> (if b then <[k := v]> t else t) !! k' = t !! k'.
Proof. intros. destruct b; [by rewrite lookup_insert_ne|done]. Qed.



Lemma assign_options_other a s tb t (k : string) :
  k ∉ assigned_names -> assign_options a s tb t !! k = t !! k.
Proof.
  intros Hk. unfold assign_options; cbv zeta.
  repeat rewrite lookup_if_insert_ne; try done.
  all: intros <-; apply Hk; unfold assigned_names; set_unfold; tauto.
Qed.














Lemma rest_properties_lookup (names : list string) (o : gmap string value)
    (k : string) :
  rest_properties names o !! k = if decide (k ∈ names) then None else o !! k.
Proof.
  unfold rest_properties. induction names as [|n names IH]; cbn [foldr].
  - destruct (decide (k ∈ [])) as [H|_]; [by apply elem_of_nil in H|done].
  - rewrite lookup_delete, IH.
    destruct (decide (n = k)) as [->|Hn].
    + rewrite decide_True; [done|]. apply elem_of_cons. by left.
    + destruct (decide (k ∈ names)) as [Hk|Hk].
      * rewrite decide_True; [done|]. apply elem_of_cons. by right.
      * rewrite decide_False; [done|].
        intros [->|?]%elem_of_cons; done.
Qed.





(** ** Unrecognized options *)








(** ** Parameters *)

Lemma parameters_object_typed (ps : list ParameterEntry)
    (acc : gmap string value) :
  foldl (fun (acc : gmap string value) p =>
           <[ToString (Get p "Name") := Get p "Values"]> acc) acc
    (ParameterEntry_value <$> ps)
  = foldl (fun (acc : gmap string value) p =>
             <[Name p := Values p]> acc) acc ps.
Proof.
  revert acc. induction ps as [|p ps IH]; intros acc; [done|].
  cbn [fmap list_fmap foldl]. rewrite <- IH.
  replace (Get (ParameterEntry_value p) "Name") with (VStr (Name p))
    by (unfold ParameterEntry_value, Get; by rewrite lookup_insert_eq).
  replace (Get (ParameterEntry_value p) "Values") with (Values p)
    by (unfold ParameterEntry_value, Get;
        by rewrite lookup_insert_ne, lookup_insert_eq).
  done.
Qed.

Lemma entries_defined_typed (ps : list ParameterEntry) :
  entries_defined (ParameterEntry_value <$> ps) = true.
Proof. induction ps; [done|]. simpl. done. Qed.

Lemma foldl_entries_lookup (ps : list ParameterEntry)
    (acc : gmap string value) (k : string) v :
  NoDup (Name <$> ps) ->
  foldl (fun (acc : gmap string value) p => <[Name p := Values p]> acc) acc ps
    !! k = Some v <->
  (exists p, p ∈ ps /\ Name p = k /\ Values p = v) \/
  ((k ∉ Name <$> ps) /\ acc !! k = Some v).
Proof.
  revert acc. induction ps as [|p ps IH]; intros acc Hnd; cbn [foldl].
  - split.
    + intros H. right. split; [apply not_elem_of_nil|done].
    + intros [(p & Hp & _)|[_ H]]; [by apply elem_of_nil in Hp|done].
  - rewrite fmap_cons in Hnd. apply NoDup_cons in Hnd as [Hp Hnd].
    rewrite IH by done. split.
    + intros [(q & Hq & Hk & Hv)|[Hk H]].
      * left. exists q. by rewrite elem_of_cons; auto.
      * destruct (decide (Name p = k)) as [E|E].
        -- left. exists p. rewrite elem_of_cons. subst k.
           rewrite lookup_insert_eq in H. by injection H as ->; auto.
        -- right. rewrite lookup_insert_ne in H by done.
           split; [|done]. rewrite fmap_cons, not_elem_of_cons. auto.
    + intros [(q & [->|Hq]%elem_of_cons & Hk & Hv)|[Hk H]].
      * right. subst k v. split; [done|]. by rewrite lookup_insert_eq.
      * left. eauto.
      * right. rewrite fmap_cons, not_elem_of_cons in Hk.
        destruct Hk as [Hne Hk]. split; [done|].
        by rewrite lookup_insert_ne.
Qed.

Lemma parameters_of_object_permutation (ps : list ParameterEntry) :
  NoDup (Name <$> ps) ->
  parameters_of_object
    (foldl (fun (acc : gmap string value) p => <[Name p := Values p]> acc)
       ∅ ps) ≡ₚ ps.
Proof.
  intros Hnd. unfold parameters_of_object. apply NoDup_Permutation.
  - apply NoDup_fmap_2; [|apply NoDup_map_to_list].
    intros [k v] [k' v'] [= -> ->]. done.
  - by apply NoDup_fmap_1 in Hnd.
  - intros [n vs]. rewrite list_elem_of_fmap. split.
    + intros ([k v] & [= -> ->] & H%elem_of_map_to_list).
      apply foldl_entries_lookup in H as [(p & Hp & Hk & Hv)|[_ H]];
        [|done|done].
      destruct p as [n' vs']. simpl in *. by subst.
    + intros Hp. exists (n, vs). split; [done|].
      apply elem_of_map_to_list, foldl_entries_lookup; [done|].
      left. by exists {| Name := n; Values := vs |}.
Qed.

(** C2, as stated, fails on a list in which two entries share a name:
    the later entry takes the place of the earlier one in the mapping,
    so the list that comes back is shorter than the one that went in. *)
Lemma parameters_round_trip_shared_name :
  exists t o,
    transformDashboardContentOptions
      (BaseExperience_transformContentOptions test_frameOptions)
      {[ "parameters" :=
           VArr (ParameterEntry_value <$>
                   [{| Name := "State"; Values := VArr [VStr "CT"] |};
                    {| Name := "State"; Values := VArr [VStr "NY"] |}]) ]}
      new_world = (Return t, new_world) /\
    t !! "parameters" = Some (VObj o) /\
    parameters_of_object o =
      [{| Name := "State"; Values := VArr [VStr "NY"] |}] /\
    ~ parameters_of_object o ≡ₚ
        [{| Name := "State"; Values := VArr [VStr "CT"] |};
         {| Name := "State"; Values := VArr [VStr "NY"] |}].
Proof.
  eexists. eexists. split; [vm_compute; reflexivity|].
  split; [vm_compute; reflexivity|].
  split; [vm_compute; reflexivity|].
  intros H%Permutation_length. vm_compute in H. discriminate.
Qed.

(** C2, amended.  For a parameter list whose names are pairwise
    distinct, the transformed content options hold under [parameters]
    a name-to-values mapping, and the list that this mapping stands for
    is the original one up to the order of its entries. *)
Theorem transformDashboardContentOptions_parameters_round_trip
    (transformContentOptions :
       gmap string value -> gmap string value -> M (gmap string value))
    (contentOptions : gmap string value) w t0 w1
    (ps : list ParameterEntry) :
  transformContentOptions
    {[ "locale" := Get (VObj contentOptions) "locale" ]}
    (rest_properties recognized_options contentOptions) w = (Return t0, w1) ->
  contentOptions !! "parameters" = Some (VArr (ParameterEntry_value <$> ps)) ->
  NoDup (Name <$> ps) ->
  exists t o,
    transformDashboardContentOptions transformContentOptions contentOptions w
      = (Return t, w1) /\
    t !! "parameters" = Some (VObj o) /\
    parameters_of_object o ≡ₚ ps.
Proof.
  intros Hh Hps Hnd.
  assert (Hget : Get (VObj contentOptions) "parameters"
                 = VArr (ParameterEntry_value <$> ps)).
  { unfold Get. by rewrite Hps. }
  eexists. eexists. split; [|split].
  - apply transformDashboardContentOptions_run; [done|].
    unfold parameters_typed. rewrite Hget. apply entries_defined_typed.
  - unfold transformed_from. rewrite Hget.
    rewrite assign_options_other
      by (unfold assigned_names; set_unfold; intuition discriminate).
    apply lookup_insert_eq.
  - unfold parameters_object. rewrite parameters_object_typed.
    by apply parameters_of_object_permutation.
Qed.

Lemma transformDashboardContentOptions_parameters_round_trip_witness :
  exists t o,
    transformDashboardContentOptions
      (BaseExperience_transformContentOptions test_frameOptions)
      {[ "parameters" :=
           VArr (ParameterEntry_value <$>
                   [{| Name := "State"; Values := VArr [VStr "CT"] |}]) ]}
      new_world = (Return t, new_world) /\
    t !! "parameters" = Some (VObj o) /\
    parameters_of_object o ≡ₚ
      [{| Name := "State"; Values := VArr [VStr "CT"] |}].
Proof.
  apply (transformDashboardContentOptions_parameters_round_trip
           (BaseExperience_transformContentOptions test_frameOptions)
           {[ "parameters" :=
                VArr (ParameterEntry_value <$>
                        [{| Name := "State"; Values := VArr [VStr "CT"] |}]) ]}
           new_world {[ "locale" := VUndefined ]} new_world
           [{| Name := "State"; Values := VArr [VStr "CT"] |}]).
  - vm_compute. reflexivity.
  - vm_compute. reflexivity.
  - apply NoDup_singleton.
Defined.

(** ** Unrecognized options and the constructor *)





(** * Further properties of the module *)

(** ** The URL check on its own *)

Lemma scan_shape (u id q t : string) :
  scan_dashboard_url u = Some (id, q, t) ->
  (exists host guid, dashboard_url_parts u host guid id (q +:+ t)) /\
  (q = "" /\ t = "" \/ q = "?").
Proof.
  unfold scan_dashboard_url, scan_id. intros H.
  destruct (strip_prefix_ci "https://" u) as [s1|] eqn:E1; [|done].
  cbn [mbind option_bind] in H.
  destruct (nonempty_span _ s1) as [[host s2]|] eqn:E2; [|done].
  cbn [mbind option_bind snd] in H.
  destruct (strip_prefix_ci "/embed/" s2) as [s3|] eqn:E3; [|done].
  cbn [mbind option_bind] in H.
  destruct (nonempty_span _ s3) as [[guid s4]|] eqn:E4; [|done].
  cbn [mbind option_bind snd] in H.
  destruct (strip_prefix_ci "/dashboards/" s4) as [s5|] eqn:E5; [|done].
  cbn [mbind option_bind] in H.
  destruct (nonempty_span _ s5) as [[id' tail]|] eqn:E6; [|done].
  cbn [mbind option_bind fst snd] in H.
  apply strip_prefix_ci_inv in E1 as (scheme & -> & Hscheme).
  apply strip_prefix_ci_inv in E3 as (embed & -> & Hembed).
  apply strip_prefix_ci_inv in E5 as (dashboards & -> & Hdash).
  apply nonempty_span_inv in E2 as (Hh1 & Hh2 & -> & _).
  apply nonempty_span_inv in E4 as (Hg1 & Hg2 & -> & _).
  apply nonempty_span_inv in E6 as (Hi1 & Hi2 & -> & _).
  rewrite (all_chars_ext _ _ _ slash_class) in Hh2.
  rewrite (all_chars_ext _ _ _ slash_class) in Hg2.
  rewrite (all_chars_ext _ _ _ id_class) in Hi2.
  assert (id' = id /\ tail = q +:+ t /\ (q = "" /\ t = "" \/ q = "?"))
    as (-> & -> & Hq).
  { unfold scan_query in H. destruct tail as [|c tail].
    - simplify_eq. auto.
    - destruct (Ascii.eqb _ _) eqn:E; [|done].
      apply question_mark_only in E as ->. simplify_eq. auto. }
  split; [|done].
  exists host, guid, scheme, embed, dashboards.
  repeat split; try done.
  destruct Hq as [[-> ->] | ->]; [by left|right; by exists t].
Qed.

(** X1.  [extractExperienceFromUrl] succeeds exactly on the URLs of the
    grammar.  On such a URL it returns a DASHBOARD experience whose id
    is a non-empty run of word characters and hyphens, and leaves the
    world alone: [onChange] is not called.  On any other URL it throws
    "Invalid dashboard experience URL", and the only change to the world
    is the one call to [onChange], which is not made when no listener
    was given. *)
Theorem extractExperienceFromUrl_outcome (fo : FrameOptions) (u : string)
    (w : World) :
  (DashboardUrl u ->
   exists id, identifier id /\
     extractExperienceFromUrl fo u w =
     (Return {| experienceType := DASHBOARD; dashboardId := VStr id |}, w))
  /\ (~ DashboardUrl u ->
      extractExperienceFromUrl fo u w =
      (Throw (Error "Invalid dashboard experience URL"),
       {| onChangeCalls :=
            onChangeCalls w ++
              match onChange fo with
              | Some f => [{| callee := f;
                              changeEvent := invalid_url_event u;
                              metadata := {| frame := None |} |}]
              | None => []
              end;
          experienceIdentifiers := experienceIdentifiers w |})
      /\ (onChange fo = None ->
          extractExperienceFromUrl fo u w =
          (Throw (Error "Invalid dashboard experience URL"), w))).
Proof.
  rewrite extractExperienceFromUrl_scan. split.
  - intros [[[id q] t] E]%scan_DashboardUrl. rewrite E.
    destruct (scan_shape _ _ _ _ E) as [(h & g & Hparts) _].
    destruct Hparts as (? & ? & ? & _ & _ & _ & _ & _ & _ & Hid & _).
    by exists id.
  - intros Hu. destruct (scan_dashboard_url u) eqn:E.
    + destruct Hu. apply scan_DashboardUrl. by rewrite E.
    + unfold mbind, M_bind, bind. rewrite call_onChange_run.
      split; [done|]. intros ->. destruct w. unfold throw. simpl.
      by rewrite app_nil_r.
Qed.

Lemma extractExperienceFromUrl_outcome_witness :
  (exists id, identifier id /\
     extractExperienceFromUrl test_frameOptions TEST_DASHBOARD_URL new_world =
     (Return {| experienceType := DASHBOARD; dashboardId := VStr id |},
      new_world))
  /\ extractExperienceFromUrl
       {| url := TEST_VISUAL_URL; onChange := None;
          resizeHeightOnSizeChangedEvent := VUndefined |}
       TEST_VISUAL_URL new_world =
     (Throw (Error "Invalid dashboard experience URL"), new_world).
Proof.
  split.
  - apply (extractExperienceFromUrl_outcome test_frameOptions
             TEST_DASHBOARD_URL new_world).
    apply scan_DashboardUrl. eexists. reflexivity.
  - apply (extractExperienceFromUrl_outcome
             {| url := TEST_VISUAL_URL; onChange := None;
                resizeHeightOnSizeChangedEvent := VUndefined |}
             TEST_VISUAL_URL new_world).
    + apply not_DashboardUrl_scan. reflexivity.
    + reflexivity.
Defined.

(** X2.  After the dashboard id only the end of the URL or a question
    mark is accepted.  A URL that is laid out as the grammar asks up to
    the id and goes on with any other character that cannot belong to
    the id (a slash, a hash sign, a dot, a space) is refused:
    [extractExperienceFromUrl] throws. *)
Theorem extractExperienceFromUrl_trailing fo w
    (scheme embed dashboards host guid id : string) (c : ascii)
    (t : string) :
  fold_case scheme = fold_case "https://" ->
  fold_case embed = fold_case "/embed/" ->
  fold_case dashboards = fold_case "/dashboards/" ->
  segment host -> segment guid -> identifier id ->
  id_char c = false -> c <> "?"%char ->
  let u := scheme +:+ host +:+ embed +:+ guid +:+ dashboards +:+ id
           +:+ String c t in
  ~ DashboardUrl u /\
  (extractExperienceFromUrl fo u w).1 =
    Throw (Error "Invalid dashboard experience URL").
Proof.
  intros Hs He Hd Hh Hg Hi Hc Hq u.
  assert (Hscan : scan_dashboard_url u = None).
  { unfold u. rewrite scan_after_id; try done.
    - unfold scan_query. destruct (Ascii.eqb _ _) eqn:E; [|done].
      by apply question_mark_only in E.
    - by intros c' t' [= <- _]. }
  split; [by apply not_DashboardUrl_scan|].
  rewrite extractExperienceFromUrl_scan, Hscan.
  unfold mbind, M_bind, bind. by rewrite call_onChange_run.
Qed.

Lemma extractExperienceFromUrl_trailing_witness :
  ~ DashboardUrl
      "https://test.amazon.com/embed/guid/dashboards/testDashboardId/"
  /\ (extractExperienceFromUrl test_frameOptions
        "https://test.amazon.com/embed/guid/dashboards/testDashboardId#x"
        new_world).1 =
     Throw (Error "Invalid dashboard experience URL").
Proof.
  split.
  - apply (extractExperienceFromUrl_trailing test_frameOptions new_world
             "https://" "/embed/" "/dashboards/"
             "test.amazon.com" "guid" "testDashboardId" "/" "");
      try reflexivity; try (split; [discriminate|reflexivity]); discriminate.
  - apply (extractExperienceFromUrl_trailing test_frameOptions new_world
             "https://" "/embed/" "/dashboards/"
             "test.amazon.com" "guid" "testDashboardId" "#" "x");
      try reflexivity; try (split; [discriminate|reflexivity]); discriminate.
Defined.

(** X3.  The result of [exec] on the dashboard pattern, when there is
    one, has exactly three entries, all of them strings: the matched
    text, which is a prefix of the URL, the dashboard id, and the text of
    the second group, which is empty at the end of the URL and the
    question mark otherwise.  So [matches.length < 3] holds exactly when
    there is no match. *)
Theorem exec_dashboard_shape (u : string) (matches : list value) :
  exec dashboard_url_pattern 2 u = Some matches ->
  exists whole id q t,
    matches = [VStr whole; VStr id; VStr q] /\
    u = whole +:+ t /\ identifier id /\
    (q = "" /\ t = "" \/ q = "?").
Proof.
  rewrite exec_dashboard.
  destruct (scan_dashboard_url u) as [[[id q] t]|] eqn:E; [|done].
  intros [= <-]. cbn [fst snd].
  destruct (scan_shape _ _ _ _ E) as [(h & g & Hparts) Hq].
  destruct Hparts as (s & e & d & _ & _ & _ & Hu & _ & _ & Hid & _).
  exists (s +:+ h +:+ e +:+ g +:+ d +:+ id +:+ q), id, q, t.
  assert (Hw : u = (s +:+ h +:+ e +:+ g +:+ d +:+ id +:+ q) +:+ t)
    by (rewrite Hu, !append_assoc; done).
  assert (Hc : consumed u t = s +:+ h +:+ e +:+ g +:+ d +:+ id +:+ q)
    by (rewrite Hw at 1; apply consumed_append).
  rewrite Hc. done.
Qed.

Lemma exec_dashboard_shape_witness :
  exists whole id q t,
    [VStr "https://test.amazon.com/embed/guid/dashboards/testDashboardId?";
     VStr "testDashboardId"; VStr "?"]
      = [VStr whole; VStr id; VStr q] /\
    "https://test.amazon.com/embed/guid/dashboards/testDashboardId?a=b"
      = whole +:+ t /\ identifier id /\
    (q = "" /\ t = "" \/ q = "?").
Proof.
  apply (exec_dashboard_shape
           "https://test.amazon.com/embed/guid/dashboards/testDashboardId?a=b").
  vm_compute. reflexivity.
Defined.

(** ** The interception hook on its own *)

(** X4.  Without a frame to act on, the hook does nothing: when no
    metadata is passed, or the metadata holds no frame, it is handed back
    unchanged, whatever the message and the options are. *)
Theorem interceptMessage_no_frame (fo : FrameOptions)
    (messageEvent : EmbeddingEvents) (metadata : option ExperienceFrameMetadata) :
  metadata = None \/ metadata = Some {| frame := None |} ->
  interceptMessage fo messageEvent metadata = metadata.
Proof.
  intros [-> | ->]; unfold interceptMessage; by destruct (_ && _).
Qed.

Lemma interceptMessage_no_frame_witness :
  interceptMessage
    {| url := TEST_DASHBOARD_URL; onChange := None;
       resizeHeightOnSizeChangedEvent := VBool true |}
    {| eventName := "SIZE_CHANGED";
       message := VObj {[ "height" := VStr "500" ]} |}
    (Some {| frame := None |})
  = Some {| frame := None |}.
Proof.
  apply (interceptMessage_no_frame
           {| url := TEST_DASHBOARD_URL; onChange := None;
              resizeHeightOnSizeChangedEvent := VBool true |}
           {| eventName := "SIZE_CHANGED";
              message := VObj {[ "height" := VStr "500" ]} |}
           (Some {| frame := None |})).
  right. reflexivity.
Defined.

(** X5.  The hook touches the [height] attribute and nothing else: a
    frame that was there is still there, and every other attribute of
    its element is as before, whatever the message and the options. *)
Theorem interceptMessage_other_attributes (fo : FrameOptions)
    (messageEvent : EmbeddingEvents) (el : Element) :
  exists el',
    interceptMessage fo messageEvent (Some {| frame := Some el |})
      = Some {| frame := Some el' |} /\
    forall name : string,
      name <> "height" -> attributes el' !! name = attributes el !! name.
Proof.
  unfold interceptMessage. destruct (_ && _).
  - eexists. split; [done|]. intros name Hname. simpl.
    by rewrite lookup_insert_ne.
  - by exists el.
Qed.

Lemma interceptMessage_other_attributes_witness :
  exists el',
    interceptMessage
      {| url := TEST_DASHBOARD_URL; onChange := None;
         resizeHeightOnSizeChangedEvent := VBool true |}
      {| eventName := "SIZE_CHANGED";
         message := VObj {[ "height" := VStr "500" ]} |}
      (Some {| frame :=
                 Some {| attributes :=
                           <["width" := "800px"]> {[ "height" := "0px" ]} |} |})
    = Some {| frame := Some el' |} /\
    attributes el' !! "width" = Some "800px".
Proof.
  destruct (interceptMessage_other_attributes
              {| url := TEST_DASHBOARD_URL; onChange := None;
                 resizeHeightOnSizeChangedEvent := VBool true |}
              {| eventName := "SIZE_CHANGED";
                 message := VObj {[ "height" := VStr "500" ]} |}
              {| attributes :=
                   <["width" := "800px"]> {[ "height" := "0px" ]} |})
    as (el' & Hrun & Hother).
  exists el'. split; [exact Hrun|].
  rewrite (Hother "width"); [vm_compute; reflexivity|discriminate].
Defined.



(** X7.  The resize test is a truthiness test, and the height is
    written as it prints.  On a SIZE_CHANGED message, with any truthy
    [resizeHeightOnSizeChangedEvent] and a frame, a message without a
    payload, or with a payload without [height], sets the [height]
    attribute to the text [undefinedpx]. *)
Theorem interceptMessage_missing_height (fo : FrameOptions)
    (messageEvent : EmbeddingEvents) (el : Element) :
  eventName messageEvent = "SIZE_CHANGED" ->
  ToBoolean (resizeHeightOnSizeChangedEvent fo) = true ->
  nullish (message messageEvent) \/
  (exists payload, message messageEvent = VObj payload /\
                   payload !! "height" = None) ->
  interceptMessage fo messageEvent (Some {| frame := Some el |}) =
  Some {| frame :=
            Some {| attributes :=
                      <["height" := "undefinedpx"]> (attributes el) |} |}.
Proof.
  intros Hname Hresize Hpayload. unfold interceptMessage.
  rewrite Hname, Hresize.
  assert (opt_member (message messageEvent) "height" = VUndefined) as ->.
  { destruct Hpayload as [[-> | ->] | (payload & -> & Hh)]; try done.
    unfold opt_member, Get. by rewrite Hh. }
  done.
Qed.

Lemma interceptMessage_missing_height_witness :
  interceptMessage
    {| url := TEST_DASHBOARD_URL; onChange := None;
       resizeHeightOnSizeChangedEvent := VNum (Number_of_Z 1) |}
    {| eventName := "SIZE_CHANGED"; message := VUndefined |}
    (Some {| frame := Some {| attributes := {[ "height" := "0px" ]} |} |})
  = Some {| frame :=
              Some {| attributes := {[ "height" := "undefinedpx" ]} |} |}.
Proof.
  rewrite (interceptMessage_missing_height
             {| url := TEST_DASHBOARD_URL; onChange := None;
                resizeHeightOnSizeChangedEvent := VNum (Number_of_Z 1) |}
             {| eventName := "SIZE_CHANGED"; message := VUndefined |}
             {| attributes := {[ "height" := "0px" ]} |}
             eq_refl eq_refl (or_introl (or_introl eq_refl))).
  vm_compute. reflexivity.
Defined.

(** ** The facade on its own *)

(** X8.  A payload that is there is handed on as it is.  When [send]
    resolves to a response whose [message] is neither [undefined] nor
    [null], each of the five unwrapping operations resolves to that
    message, also when it is falsy (the empty string, zero, [false]):
    the fallback stands in for a missing payload only. *)
Theorem facade_payload_present (send : EmbeddingMessageEvent -> M value)
    (w : World) (sheetId visualId : string) (payload : value) :
  ~ nullish payload ->
  (forall ev, exists response,
      (send ev w).1 = Return (VObj response) /\
      response !! "message" = Some payload) ->
  getParameters send w =
    (Return payload,
     (send (new_EmbeddingMessageEvent GET_PARAMETERS VUndefined) w).2)
  /\ getSheets send w =
       (Return payload,
        (send (new_EmbeddingMessageEvent GET_SHEETS VUndefined) w).2)
  /\ getVisualActions send sheetId visualId w =
       (Return payload,
        (send (new_EmbeddingMessageEvent GET_VISUAL_ACTIONS
                 (VObj (<["SheetId" := VStr sheetId]>
                          (<["VisualId" := VStr visualId]> ∅)))) w).2)
  /\ getSheetVisuals send sheetId w =
       (Return payload,
        (send (new_EmbeddingMessageEvent GET_SHEET_VISUALS
                 (VObj (<["SheetId" := VStr sheetId]> ∅))) w).2)
  /\ getSelectedSheetId send w =
       (Return payload,
        (send (new_EmbeddingMessageEvent GET_SELECTED_SHEET_ID VUndefined)
           w).2).
Proof.
  intros Hpayload Hsend.
  assert (Hrun : forall ev fallback,
             (response ← send ev;
              mret (nullish_coalesce (opt_member response "message")
                      fallback)) w
             = (Return payload, (send ev w).2)).
  { intros ev fallback. destruct (Hsend ev) as (response & Hr & Hm).
    unfold mbind, M_bind, bind.
    destruct (send ev w) as [o w']. simpl in Hr. subst o.
    unfold mret, M_ret, ret, opt_member, Get. rewrite Hm. simpl.
    destruct payload; try done.
    - destruct Hpayload. by left.
    - destruct Hpayload. by right. }
  repeat split; apply Hrun.
Qed.

Lemma facade_payload_present_witness :
  getSelectedSheetId
    (fun _ => mret (VObj {[ "message" := VStr "" ]})) new_world
    = (Return (VStr ""), new_world)
  /\ getParameters
       (fun _ => mret (VObj {[ "message" := VBool false ]})) new_world
     = (Return (VBool false), new_world).
Proof.
  split.
  - destruct (facade_payload_present
                (fun _ => mret (VObj {[ "message" := VStr "" ]})) new_world
                "testSheetId" "testVisualId" (VStr ""))
      as (_ & _ & _ & _ & H); [| |exact H].
    + intros [H | H]; discriminate H.
    + intros ev. eexists. split; reflexivity.
  - destruct (facade_payload_present
                (fun _ => mret (VObj {[ "message" := VBool false ]}))
                new_world "testSheetId" "testVisualId" (VBool false))
      as (H & _); [| |exact H].
    + intros [H | H]; discriminate H.
    + intros ev. eexists. split; reflexivity.
Defined.

(** X9.  A failed request fails the operation.  When [send] throws, each
    of the five unwrapping operations throws the same error, with the
    world as [send] left it: no fallback value is made up. *)
Theorem facade_send_throws (send : EmbeddingMessageEvent -> M value)
    (w : World) (sheetId visualId : string) (e : exn) :
  (forall ev, (send ev w).1 = Throw e) ->
  getParameters send w =
    (Throw e, (send (new_EmbeddingMessageEvent GET_PARAMETERS VUndefined) w).2)
  /\ getSheets send w =
       (Throw e, (send (new_EmbeddingMessageEvent GET_SHEETS VUndefined) w).2)
  /\ getVisualActions send sheetId visualId w =
       (Throw e,
        (send (new_EmbeddingMessageEvent GET_VISUAL_ACTIONS
                 (VObj (<["SheetId" := VStr sheetId]>
                          (<["VisualId" := VStr visualId]> ∅)))) w).2)
  /\ getSheetVisuals send sheetId w =
       (Throw e,
        (send (new_EmbeddingMessageEvent GET_SHEET_VISUALS
                 (VObj (<["SheetId" := VStr sheetId]> ∅))) w).2)
  /\ getSelectedSheetId send w =
       (Throw e,
        (send (new_EmbeddingMessageEvent GET_SELECTED_SHEET_ID VUndefined)
           w).2).
Proof.
  intros Hsend.
  assert (Hrun : forall ev fallback,
             (response ← send ev;
              mret (nullish_coalesce (opt_member response "message")
                      fallback)) w
             = (Throw e, (send ev w).2)).
  { intros ev fallback. specialize (Hsend ev).
    unfold mbind, M_bind, bind.
    destruct (send ev w) as [o w']. simpl in Hsend. by subst o. }
  repeat split; apply Hrun.
Qed.

Lemma facade_send_throws_witness :
  getSheets (fun _ => throw (Error "timeout")) new_world
  = (Throw (Error "timeout"), new_world).
Proof.
  destruct (facade_send_throws (fun _ => throw (Error "timeout")) new_world
              "testSheetId" "testVisualId" (Error "timeout"))
    as (_ & H & _); [|exact H].
  intros ev. reflexivity.
Defined.

(** ** The option transformation on its own *)










(** ** Parameters, further *)

(** X13.  Only an array is taken for a parameter list.  When
    [parameters] is absent or is anything but an array (an object, a
    string), the transformation does not set [parameters] and does not
    throw, whatever the value holds. *)
Theorem transformDashboardContentOptions_parameters_not_array
    (transformContentOptions :
       gmap string value -> gmap string value -> M (gmap string value))
    (contentOptions : gmap string value) w t0 w1 :
  transformContentOptions
    {[ "locale" := Get (VObj contentOptions) "locale" ]}
    (rest_properties recognized_options contentOptions) w = (Return t0, w1) ->
  (forall ps, Get (VObj contentOptions) "parameters" <> VArr ps) ->
  exists t,
    transformDashboardContentOptions transformContentOptions contentOptions w
      = (Return t, w1) /\
    t !! "parameters" = t0 !! "parameters".
Proof.
  intros Hh Hnot.
  assert (Hp : parameters_typed contentOptions).
  { unfold parameters_typed.
    destruct (Get (VObj contentOptions) "parameters") eqn:E; try done.
    by destruct (Hnot l). }
  eexists. split; [by apply transformDashboardContentOptions_run|].
  unfold transformed_from.
  rewrite assign_options_other
    by (unfold assigned_names; set_unfold; intuition discriminate).
  destruct (Get (VObj contentOptions) "parameters") eqn:E; try done.
  by destruct (Hnot l).
Qed.

Lemma transformDashboardContentOptions_parameters_not_array_witness :
  exists t,
    transformDashboardContentOptions
      (BaseExperience_transformContentOptions test_frameOptions)
      {[ "parameters" := VObj {[ "State" := VArr [VStr "CT"] ]} ]}
      new_world = (Return t, new_world) /\
    t !! "parameters" = None.
Proof.
  destruct (transformDashboardContentOptions_parameters_not_array
              (BaseExperience_transformContentOptions test_frameOptions)
              {[ "parameters" := VObj {[ "State" := VArr [VStr "CT"] ]} ]}
              new_world {[ "locale" := VUndefined ]} new_world)
    as (t & Hrun & Hunset).
  - vm_compute. reflexivity.
  - intros ps. vm_compute. discriminate.
  - exists t. split; [exact Hrun|]. rewrite Hunset. vm_compute. reflexivity.
Defined.

Lemma foldl_entries_last (ps : list ParameterEntry)
    (acc : gmap string value) (k : string) :
  foldl (fun (acc : gmap string value) p => <[Name p := Values p]> acc) acc ps
    !! k =
  match last (filter (fun p => Name p = k) ps) with
  | Some p => Some (Values p)
  | None => acc !! k
  end.
Proof.
  revert acc. induction ps as [|p ps IH]; intros acc; [done|].
  cbn [foldl]. rewrite IH. rewrite filter_cons.
  destruct (decide (Name p = k)) as [E|E].
  - rewrite last_cons. destruct (last (filter _ ps)); [done|].
    by rewrite <- E, lookup_insert_eq.
  - destruct (last (filter _ ps)); [done|]. by rewrite lookup_insert_ne.
Qed.

(** X14.  The mapping made of a parameter list gives each name the
    values of the last entry that bears it, and has no other key.  The
    property [parameters] is set for every array, also the empty one,
    for which it is the empty object. *)
Theorem transformDashboardContentOptions_parameters_last
    (transformContentOptions :
       gmap string value -> gmap string value -> M (gmap string value))
    (contentOptions : gmap string value) w t0 w1
    (ps : list ParameterEntry) :
  transformContentOptions
    {[ "locale" := Get (VObj contentOptions) "locale" ]}
    (rest_properties recognized_options contentOptions) w = (Return t0, w1) ->
  contentOptions !! "parameters" = Some (VArr (ParameterEntry_value <$> ps)) ->
  exists t o,
    transformDashboardContentOptions transformContentOptions contentOptions w
      = (Return t, w1) /\
    t !! "parameters" = Some (VObj o) /\
    (forall name : string,
       o !! name = Values <$> last (filter (fun p => Name p = name) ps)) /\
    (ps = [] -> o = ∅).
Proof.
  intros Hh Hps.
  assert (Hget : Get (VObj contentOptions) "parameters"
                 = VArr (ParameterEntry_value <$> ps)).
  { unfold Get. by rewrite Hps. }
  eexists. eexists. split; [|split; [|split]].
  - apply transformDashboardContentOptions_run; [done|].
    unfold parameters_typed. rewrite Hget. apply entries_defined_typed.
  - unfold transformed_from. rewrite Hget.
    rewrite assign_options_other
      by (unfold assigned_names; set_unfold; intuition discriminate).
    apply lookup_insert_eq.
  - intros name. unfold parameters_object.
    rewrite parameters_object_typed, foldl_entries_last.
    by destruct (last _).
  - by intros ->.
Qed.

Lemma transformDashboardContentOptions_parameters_last_witness :
  exists t o,
    transformDashboardContentOptions
      (BaseExperience_transformContentOptions test_frameOptions)
      {[ "parameters" :=
           VArr (ParameterEntry_value <$>
                   [{| Name := "State"; Values := VArr [VStr "CT"] |};
                    {| Name := "State"; Values := VArr [VStr "NY"] |}]) ]}
      new_world = (Return t, new_world) /\
    t !! "parameters" = Some (VObj o) /\
    o !! "State" = Some (VArr [VStr "NY"]).
Proof.
  destruct (transformDashboardContentOptions_parameters_last
              (BaseExperience_transformContentOptions test_frameOptions)
              {[ "parameters" :=
                   VArr (ParameterEntry_value <$>
                           [{| Name := "State"; Values := VArr [VStr "CT"] |};
                            {| Name := "State"; Values := VArr [VStr "NY"] |}])
              ]}
              new_world {[ "locale" := VUndefined ]} new_world
              [{| Name := "State"; Values := VArr [VStr "CT"] |};
               {| Name := "State"; Values := VArr [VStr "NY"] |}])
    as (t & o & Hrun & Hset & Hlast & _).
  - vm_compute. reflexivity.
  - vm_compute. reflexivity.
  - exists t, o. split; [exact Hrun|]. split; [exact Hset|].
    rewrite (Hlast "State"). vm_compute. reflexivity.
Defined.

Lemma reduce_parameters_throws ps (acc : gmap string value) w :
  entries_defined ps = false ->
  reduce_parameters ps acc w = (Throw TypeError, w).
Proof.
  revert acc. induction ps as [|p ps IH]; intros acc Hps; [done|].
  cbn [reduce_parameters]. simpl in Hps.
  destruct p; try done;
    rewrite !member_defined by done;
    unfold mbind, M_bind, bind, mret, M_ret, ret; by apply IH.
Qed.

(** X15.  An entry of the parameter array that is [undefined] or [null]
    makes the transformation throw a TypeError.  This happens after
    [transformContentOptions] has run, so what that call did to the
    world stays done, and no transformed options are returned. *)
Theorem transformDashboardContentOptions_parameters_TypeError
    (transformContentOptions :
       gmap string value -> gmap string value -> M (gmap string value))
    (contentOptions : gmap string value) w t0 w1 ps :
  transformContentOptions
    {[ "locale" := Get (VObj contentOptions) "locale" ]}
    (rest_properties recognized_options contentOptions) w = (Return t0, w1) ->
  Get (VObj contentOptions) "parameters" = VArr ps ->
  entries_defined ps = false ->
  transformDashboardContentOptions transformContentOptions contentOptions w
    = (Throw TypeError, w1).
Proof.
  intros Hh Hps Hbad. unfold transformDashboardContentOptions.
  unfold mbind at 1, M_bind at 1, bind at 1. rewrite Hh, Hps.
  unfold mbind at 1, M_bind at 1, bind at 1.
  unfold mbind at 1, M_bind at 1, bind at 1.
  by rewrite reduce_parameters_throws.
Qed.

Lemma transformDashboardContentOptions_parameters_TypeError_witness :
  transformDashboardContentOptions
    (BaseExperience_transformContentOptions test_frameOptions)
    {[ "parameters" :=
         VArr [ParameterEntry_value
                 {| Name := "State"; Values := VArr [VStr "CT"] |};
               VNull] ]}
    new_world = (Throw TypeError, new_world).
Proof.
  apply (transformDashboardContentOptions_parameters_TypeError
           (BaseExperience_transformContentOptions test_frameOptions)
           {[ "parameters" :=
                VArr [ParameterEntry_value
                        {| Name := "State"; Values := VArr [VStr "CT"] |};
                      VNull] ]}
           new_world {[ "locale" := VUndefined ]} new_world
           [ParameterEntry_value
              {| Name := "State"; Values := VArr [VStr "CT"] |};
            VNull]).
  - vm_compute. reflexivity.
  - vm_compute. reflexivity.
  - reflexivity.
Defined.

(** ** What the transformation leaves alone *)



Lemma opt_member_not_object v (k : string) :
  (forall m, v <> VObj m) -> opt_member v k = VUndefined.
Proof. intros H. destruct v; try done. by destruct (H m). Qed.

Lemma rest_properties_insert_delete (names : list string)
    (o : gmap string value) (k : string) v :
  k ∈ names ->
  rest_properties names (<[k := v]> o) = rest_properties names (delete k o).
Proof.
  intros Hk. apply map_eq. intros j. rewrite !rest_properties_lookup.
  case_decide; [done|].
  assert (k <> j) by (by intros ->).
  by rewrite lookup_insert_ne, lookup_delete_ne.
Qed.

(** X17.  An option group that is not an object counts as absent.  When
    [attributionOptions], [sheetOptions] or [toolbarOptions] is given a
    value that is no object ([null], a boolean, a string, an array), the
    transformation does exactly what it does without that property: it
    reads nothing from the value and does not throw on it. *)
Theorem transformDashboardContentOptions_not_object
    (transformContentOptions :
       gmap string value -> gmap string value -> M (gmap string value))
    (contentOptions : gmap string value) (group : string) (v : value) w :
  group ∈ ["attributionOptions"; "sheetOptions"; "toolbarOptions"] ->
  (forall m, v <> VObj m) ->
  transformDashboardContentOptions transformContentOptions
    (<[group := v]> contentOptions) w
  = transformDashboardContentOptions transformContentOptions
      (delete group contentOptions) w.
Proof.
  intros Hgroup Hv.
  assert (Hnew : Get (VObj (<[group := v]> contentOptions)) group = v).
  { unfold Get. by rewrite lookup_insert_eq. }
  assert (Hold : Get (VObj (delete group contentOptions)) group = VUndefined).
  { unfold Get. by rewrite lookup_delete_eq. }
  assert (Hother : forall k, k <> group ->
            Get (VObj (<[group := v]> contentOptions)) k
            = Get (VObj (delete group contentOptions)) k).
  { intros k Hk. unfold Get.
    by rewrite lookup_insert_ne, lookup_delete_ne. }
  assert (Hmember : forall k, opt_member v k = VUndefined)
    by (intros; by apply opt_member_not_object).
  set_unfold in Hgroup.
  assert (Hrec : group ∈ recognized_options)
    by (unfold recognized_options; set_unfold; tauto).
  unfold transformDashboardContentOptions.
  rewrite (rest_properties_insert_delete _ _ _ _ Hrec).
  destruct Hgroup as [-> | [-> | [-> | []]]];
    rewrite Hnew, Hold, !Hother by done;
    rewrite !Hmember; reflexivity.
Qed.

Lemma transformDashboardContentOptions_not_object_witness :
  transformDashboardContentOptions
    (BaseExperience_transformContentOptions test_frameOptions)
    (<["sheetOptions" := VNull]> {[ "locale" := VStr "en-US" ]}) new_world
  = transformDashboardContentOptions
      (BaseExperience_transformContentOptions test_frameOptions)
      (delete "sheetOptions" {[ "locale" := VStr "en-US" ]}) new_world.
Proof.
  apply (transformDashboardContentOptions_not_object
           (BaseExperience_transformContentOptions test_frameOptions)
           {[ "locale" := VStr "en-US" ]} "sheetOptions" VNull new_world).
  - apply elem_of_cons. right. apply elem_of_cons. left. reflexivity.
  - intros m. discriminate.
Defined.

(** ** The constructor, step by step *)



(** X19.  The first step that fails ends the construction, with its
    error and the world as it left it.  When the base constructor
    throws, the URL is not looked at and [onChange] hears nothing of it;
    when the registration throws, the content options are not
    transformed; when the transformation throws, no frame is built.  In
    each case no experience is returned. *)
Theorem new_DashboardExperience_first_failure
    {ControlOptions InternalDashboardExperience DashboardExperienceFrame}
    (BaseExperience_constructor :
       FrameOptions -> gmap string value -> ControlOptions -> M unit)
    (getInternalExperienceInfo :
       IDashboardExperience -> M (string * InternalDashboardExperience))
    (transformContentOptions :
       gmap string value -> gmap string value -> M (gmap string value))
    (new_DashboardExperienceFrame :
       FrameOptions -> ControlOptions -> gmap string value ->
       gmap string value -> InternalDashboardExperience -> string ->
       (EmbeddingEvents -> option ExperienceFrameMetadata ->
        option ExperienceFrameMetadata) ->
       M DashboardExperienceFrame)
    frameOptions contentOptions controlOptions w w1 e :
  let construct :=
    new_DashboardExperience BaseExperience_constructor
      getInternalExperienceInfo transformContentOptions
      new_DashboardExperienceFrame frameOptions contentOptions
      controlOptions w in
  (BaseExperience_constructor frameOptions contentOptions controlOptions w
     = (Throw e, w1) ->
   construct = (Throw e, w1))
  /\ (forall host guid id tail w2,
        BaseExperience_constructor frameOptions contentOptions
          controlOptions w = (Return tt, w1) ->
        dashboard_url_parts (url frameOptions) host guid id tail ->
        getInternalExperienceInfo
          {| experienceType := DASHBOARD; dashboardId := VStr id |} w1
          = (Throw e, w2) ->
        construct = (Throw e, w2))
  /\ (forall host guid id tail info w2 w3,
        BaseExperience_constructor frameOptions contentOptions
          controlOptions w = (Return tt, w1) ->
        dashboard_url_parts (url frameOptions) host guid id tail ->
        getInternalExperienceInfo
          {| experienceType := DASHBOARD; dashboardId := VStr id |} w1
          = (Return info, w2) ->
        transformDashboardContentOptions transformContentOptions
          contentOptions w2 = (Throw e, w3) ->
        construct = (Throw e, w3)).
Proof.
  intros construct. unfold construct, new_DashboardExperience.
  split; [|split].
  - intros Hbase. unfold mbind at 1, M_bind at 1, bind at 1.
    by rewrite Hbase.
  - intros host guid id tail w2 Hbase Hurl Hinfo.
    unfold mbind at 1, M_bind at 1, bind at 1. rewrite Hbase.
    unfold mbind at 1, M_bind at 1, bind at 1.
    rewrite extractExperienceFromUrl_scan.
    destruct (scan_complete _ _ _ _ _ Hurl) as (q & t' & ->).
    unfold mret at 1, M_ret at 1, ret at 1. cbn [fst snd].
    unfold mbind at 1, M_bind at 1, bind at 1. by rewrite Hinfo.
  - intros host guid id tail info w2 w3 Hbase Hurl Hinfo Hrun.
    unfold mbind at 1, M_bind at 1, bind at 1. rewrite Hbase.
    unfold mbind at 1, M_bind at 1, bind at 1.
    rewrite extractExperienceFromUrl_scan.
    destruct (scan_complete _ _ _ _ _ Hurl) as (q & t' & ->).
    unfold mret at 1, M_ret at 1, ret at 1. cbn [fst snd].
    unfold mbind at 1, M_bind at 1, bind at 1. rewrite Hinfo.
    unfold mbind at 1, M_bind at 1, bind at 1. by rewrite Hrun.
Qed.

Lemma new_DashboardExperience_first_failure_witness :
  new_DashboardExperience
    (fun _ _ (_ : unit) => throw (Error "Url is required for the experience"))
    (fun _ => mret ("testDashboardId", tt))
    (BaseExperience_transformContentOptions test_frameOptions)
    (fun _ _ _ _ (_ : unit) _ _ => mret tt)
    test_frameOptions ∅ tt new_world
  = (Throw (Error "Url is required for the experience"), new_world)
  /\ new_DashboardExperience
       (fun _ _ (_ : unit) => mret tt)
       (fun _ => mret ("testDashboardId", tt))
       (BaseExperience_transformContentOptions test_frameOptions)
       (fun _ _ _ _ (_ : unit) _ _ => mret tt)
       test_frameOptions {[ "parameters" := VArr [VNull] ]} tt new_world
     = (Throw TypeError, new_world).
Proof.
  split.
  - destruct (new_DashboardExperience_first_failure
                (fun _ _ (_ : unit) =>
                   throw (Error "Url is required for the experience"))
                (fun _ => mret ("testDashboardId", tt))
                (BaseExperience_transformContentOptions test_frameOptions)
                (fun _ _ _ _ (_ : unit) _ _ => mret tt)
                test_frameOptions ∅ tt new_world new_world
                (Error "Url is required for the experience"))
      as (H & _).
    apply H. reflexivity.
  - destruct (new_DashboardExperience_first_failure
                (fun _ _ (_ : unit) => mret tt)
                (fun _ => mret ("testDashboardId", tt))
                (BaseExperience_transformContentOptions test_frameOptions)
                (fun _ _ _ _ (_ : unit) _ _ => mret tt)
                test_frameOptions {[ "parameters" := VArr [VNull] ]} tt
                new_world new_world TypeError)
      as (_ & _ & H).
    apply (H "test.amazon.com" "guid" "testDashboardId" ""
             ("testDashboardId", tt) new_world new_world).
    + reflexivity.
    + exists "https://", "/embed/", "/dashboards/".
      repeat split; try reflexivity; try discriminate. left. reflexivity.
    + reflexivity.
    + vm_compute. reflexivity.
Defined.

(** ** The defaults *)


